(** * Key bits of rest_framework_extensions.key_constructor.bits

    A shallow embedding of [bits.py]: every key bit's [get_data] is a
    function from the call context to either a key fragment or a raised
    Python exception.  The collaborators the bits introspect (request, view,
    paginator, queryset) are records holding exactly the attributes and
    methods the bits read. *)

From Stdlib Require Import List String Ascii ZArith Lia Bool DecimalString.
Import ListNotations.
Local Open Scope string_scope.
Local Open Scope list_scope.
Local Open Scope Z_scope.

(** ** Python exceptions and the error monad *)

Inductive pyexc : Type :=
| AttributeError
| KeyError
| IndexError
| TypeError
| ValueError
| EmptyResultSet
| NotImplementedError.

Inductive result (A : Type) : Type :=
| Ok (a : A)
| Raise (e : pyexc).
Arguments Ok {A} a.
Arguments Raise {A} e.

Definition bind {A B : Type} (r : result A) (k : A -> result B) : result B :=
  match r with
  | Ok a => k a
  | Raise e => Raise e
  end.

Notation "x <- r ;; k" := (bind r (fun x => k))
  (at level 61, r at next level, right associativity).

Definition pyexc_eqb (a b : pyexc) : bool :=
  match a, b with
  | AttributeError, AttributeError
  | KeyError, KeyError
  | IndexError, IndexError
  | TypeError, TypeError
  | ValueError, ValueError
  | EmptyResultSet, EmptyResultSet
  | NotImplementedError, NotImplementedError => true
  | _, _ => false
  end.

(** [try: body except exc: handler] *)
Definition try_except {A : Type} (body : result A) (exc : pyexc)
  (handler : result A) : result A :=
  match body with
  | Ok a => Ok a
  | Raise e => if pyexc_eqb e exc then handler else Raise e
  end.

Definition is_ok {A : Type} (r : result A) : bool :=
  match r with Ok _ => true | Raise _ => false end.

(** ** Python values

    The values that flow through the bits: [None], text, integers and model
    classes (a class is known by its [__module__] and [__name__]). *)

Inductive pyval : Type :=
| VNone
| VStr (s : string)
| VInt (z : Z)
| VClass (module_ name_ : string).

Definition pyval_eqb (a b : pyval) : bool :=
  match a, b with
  | VNone, VNone => true
  | VStr s, VStr t => String.eqb s t
  | VInt x, VInt y => Z.eqb x y
  | VClass m n, VClass m' n' => String.eqb m m' && String.eqb n n'
  | _, _ => false
  end.

(** [value is None] *)
Definition is_none (v : pyval) : bool :=
  match v with VNone => true | _ => false end.

(** Python truthiness, as used by [if params:], [if model_class:]. *)
Definition truthy (v : pyval) : bool :=
  match v with
  | VNone => false
  | VStr s => negb (String.eqb s "")
  | VInt z => negb (Z.eqb z 0)
  | VClass _ _ => true
  end.

(** [u'.'.join(pieces)] *)
Definition join_dot (pieces : list string) : string := String.concat "." pieces.

(** [django.utils.encoding.force_text]: text is kept, anything else goes
    through [str()]. *)
Definition force_text (v : pyval) : string :=
  match v with
  | VNone => "None"
  | VStr s => s
  | VInt z => NilZero.string_of_int (Z.to_int z)
  | VClass m n => ("<class '" ++ join_dot [m; n] ++ "'>")%string
  end.

(** ** Python dicts

    Insertion-ordered association lists.  [dict_set] is [d[k] = v]: an
    existing key keeps its position and takes the new value, a fresh key is
    appended. *)

Definition dict : Type := list (pyval * pyval).

Fixpoint dict_lookup (d : dict) (k : pyval) : option pyval :=
  match d with
  | [] => None
  | (k', v) :: rest => if pyval_eqb k' k then Some v else dict_lookup rest k
  end.

(** [d.get(k)], default [None] *)
Definition dict_get (d : dict) (k : pyval) : pyval :=
  match dict_lookup d k with
  | Some v => v
  | None => VNone
  end.

(** [d[k]] *)
Definition dict_getitem (d : dict) (k : pyval) : result pyval :=
  match dict_lookup d k with
  | Some v => Ok v
  | None => Raise KeyError
  end.

Definition dict_keys (d : dict) : list pyval := map fst d.

Fixpoint dict_set (d : dict) (k v : pyval) : dict :=
  match d with
  | [] => [(k, v)]
  | (k', v') :: rest =>
      if pyval_eqb k' k then (k', v) :: rest else (k', v') :: dict_set rest k v
  end.

(** A well-formed dict has no repeated key. *)
Definition dict_wf (d : dict) : Prop := NoDup (dict_keys d).

(** [seq[i]] on a tuple or list: a negative index counts from the end, an
    index out of range raises [IndexError], a non-integer [TypeError]. *)
Definition py_getitem (seq : list pyval) (i : pyval) : result pyval :=
  match i with
  | VInt z =>
      let n := Z.of_nat (List.length seq) in
      let pos := if z <? 0 then z + n else z in
      if (pos <? 0) || (n <=? pos) then Raise IndexError
      else match nth_error seq (Z.to_nat pos) with
           | Some v => Ok v
           | None => Raise IndexError
           end
  | _ => Raise TypeError
  end.

(** ** The call context

    [None] in an [option] field read through [hasattr] means the attribute
    is missing; the inner [option] of [paginator] and [user] is Python's
    [None]. *)

Record Model : Type := {
  model_module : string;               (* model.__module__ *)
  model_name : string                  (* model.__name__ *)
}.

Inductive QuerySet : Type := mkQuerySet {
  is_EmptyQuerySet : bool;             (* isinstance(queryset, EmptyQuerySet) *)
  model : Model;                       (* queryset.model *)
  query_str : result string;           (* queryset.query.__str__() *)
  count : result Z;                    (* queryset.count() *)
  values_list_text : result string;    (* force_text(queryset.values_list()) *)
  filter : string -> pyval -> result QuerySet  (* queryset.filter(field=value) *)
}.

Record Paginator : Type := {
  page_query_param : option pyval;
  page_size_query_param : option pyval
}.

Record View : Type := {
  view_module : string;                (* view_instance.__module__ *)
  view_class_name : string;            (* view_instance.__class__.__name__ *)
  view_kwargs : dict;                  (* view_instance.kwargs *)
  lookup_field : string;
  paginator : option (option Paginator);
  get_queryset : result QuerySet;
  filter_queryset : QuerySet -> result QuerySet
}.

Record Method : Type := {
  method_name : string                 (* view_method.__name__ *)
}.

Record User : Type := {
  pk : pyval;
  is_authenticated : bool
}.

Record Renderer : Type := {
  format : pyval
}.

Record Request : Type := {
  accepted_renderer : Renderer;
  user : option (option User);
  META : dict;
  GET : dict
}.

(** The [params] of a bit: absent, the wildcard ['*'], an ordered selector
    list, or a mapping of option names to values. *)
Inductive params_t : Type :=
| PNone
| PAll
| PList (selector : list pyval)
| PDict (options : dict).

(** What a bit returns: a scalar (text, the sentinel, or [None]), a
    sequence, or a mapping. *)
Inductive fragment : Type :=
| FVal (v : pyval)
| FSeq (l : list pyval)
| FDict (d : dict).

(** [if params:] *)
Definition params_truthy (params : params_t) : bool :=
  match params with
  | PNone => false
  | PAll => true
  | PList l => negb (Nat.eqb (List.length l) 0)
  | PDict d => negb (Nat.eqb (List.length d) 0)
  end.

(** [params.get(name, None)]: only a mapping has [get]. *)
Definition params_get (params : params_t) (name : pyval) : result pyval :=
  match params with
  | PDict d => Ok (dict_get d name)
  | _ => Raise AttributeError
  end.

(** The dict-source interface: the three methods a subclass of
    [KeyBitDictBase] may override. *)
Record DictBit : Type := {
  get_source_dict :
    params_t -> option View -> option Method -> option Request ->
    list pyval -> dict -> result dict;
  prepare_key_for_value_retrieving : pyval -> result pyval;
  prepare_key_for_value_assignment : pyval -> result pyval
}.

(** [request.META], [request.GET] on a request that may be [None]. *)
Definition request_attr {A : Type} (field : Request -> A)
  (request : option Request) : result A :=
  match request with
  | Some r => Ok (field r)
  | None => Raise AttributeError
  end.

(** [view_instance.<attr>] on a view that may be [None]. *)
Definition view_attr {A : Type} (field : View -> A)
  (view_instance : option View) : result A :=
  match view_instance with
  | Some v => Ok (field v)
  | None => Raise AttributeError
  end.

(** ** The key bits *)

Section Bits.

(** Parts of the package that live outside [bits.py]. *)

(** [ext_api_settings.DEFAULT_CACHE_ANY_VALUE] *)
Variable DEFAULT_CACHE_ANY_VALUE : pyval.
(** what [django.utils.translation.get_language()] returns for this call *)
Variable get_language : pyval.
(** Python's [str.lower], a builtin *)
Variable lower : string -> string.
(** [rest_framework_extensions.utils.prepare_header_name] *)
Variable prepare_header_name : string -> string.
(** [compat.queryset_to_value_list] *)
Variable queryset_to_value_list : string -> result pyval.

(** *** KeyBitBase *)

Definition KeyBitBase_get_data (params : params_t)
  (view_instance : option View) (view_method : option Method)
  (request : option Request) (args : list pyval) (kwargs : dict)
  : result fragment :=
  Raise NotImplementedError.

(** *** KeyBitDictBase *)

Definition KeyBitDictBase_get_source_dict (params : params_t)
  (view_instance : option View) (view_method : option Method)
  (request : option Request) (args : list pyval) (kwargs : dict)
  : result dict :=
  Raise NotImplementedError.

Definition KeyBitDictBase_prepare_key_for_value_retrieving (key : pyval)
  : result pyval := Ok key.

Definition KeyBitDictBase_prepare_key_for_value_assignment (key : pyval)
  : result pyval := Ok key.

(** The body of [for key in params: ...], threading [data]. *)
Fixpoint KeyBitDictBase_loop (self : DictBit) (source_dict : dict)
  (keys : list pyval) (data : dict) : result dict :=
  match keys with
  | [] => Ok data
  | key :: rest =>
      rkey <- prepare_key_for_value_retrieving self key ;;
      let value := dict_get source_dict rkey in
      if is_none value then KeyBitDictBase_loop self source_dict rest data
      else
        akey <- prepare_key_for_value_assignment self key ;;
        KeyBitDictBase_loop self source_dict rest
          (dict_set data akey (VStr (force_text value)))
  end.

(** What [for key in params] enumerates once ['*'] has been replaced by
    [source_dict.keys()]. *)
Definition selected_keys (params : params_t) (source_dict : dict)
  : list pyval :=
  match params with
  | PNone => []
  | PAll => dict_keys source_dict
  | PList selector => selector
  | PDict options => dict_keys options
  end.

Definition KeyBitDictBase_get_data (self : DictBit) (params : params_t)
  (view_instance : option View) (view_method : option Method)
  (request : option Request) (args : list pyval) (kwargs : dict)
  : result fragment :=
  match params with
  | PNone => Ok (FDict [])
  | _ =>
      source_dict <- get_source_dict self params view_instance view_method
                       request args kwargs ;;
      data <- KeyBitDictBase_loop self source_dict
                (selected_keys params source_dict) [] ;;
      Ok (FDict data)
  end.

(** *** UniqueViewIdKeyBit *)

Definition UniqueViewIdKeyBit_get_data (params : params_t)
  (view_instance : option View) (view_method : option Method)
  (request : option Request) (args : list pyval) (kwargs : dict)
  : result fragment :=
  match view_instance with
  | Some v => Ok (FVal (VStr (join_dot [view_module v; view_class_name v])))
  | None => Ok (FVal DEFAULT_CACHE_ANY_VALUE)
  end.

(** *** UniqueMethodIdKeyBit *)

Definition UniqueMethodIdKeyBit_get_data (params : params_t)
  (view_instance : option View) (view_method : option Method)
  (request : option Request) (args : list pyval) (kwargs : dict)
  : result fragment :=
  match view_instance, view_method with
  | Some v, Some m =>
      Ok (FVal (VStr (join_dot
                        [view_module v; view_class_name v; method_name m])))
  | _, _ => Ok (FVal DEFAULT_CACHE_ANY_VALUE)
  end.

(** *** LanguageKeyBit *)

Definition LanguageKeyBit_get_data (params : params_t)
  (view_instance : option View) (view_method : option Method)
  (request : option Request) (args : list pyval) (kwargs : dict)
  : result fragment :=
  Ok (FVal (VStr (force_text get_language))).

(** *** FormatKeyBit *)

Definition FormatKeyBit_get_data (params : params_t)
  (view_instance : option View) (view_method : option Method)
  (request : option Request) (args : list pyval) (kwargs : dict)
  : result fragment :=
  match request with
  | Some r => Ok (FVal (VStr (force_text (format (accepted_renderer r)))))
  | None => Ok (FVal DEFAULT_CACHE_ANY_VALUE)
  end.

(** *** UserKeyBit *)

Definition UserKeyBit_get_id_from_user (u : User) : pyval := pk u.

Definition UserKeyBit_get_data (params : params_t)
  (view_instance : option View) (view_method : option Method)
  (request : option Request) (args : list pyval) (kwargs : dict)
  : result fragment :=
  match request with
  | None => Ok (FVal DEFAULT_CACHE_ANY_VALUE)
  | Some r =>
      match user r with
      | Some (Some u) =>
          if is_authenticated u
          then Ok (FVal (VStr (force_text (UserKeyBit_get_id_from_user u))))
          else Ok (FVal (VStr "anonymous"))
      | _ => Ok (FVal (VStr "anonymous"))
      end
  end.

(** *** HeadersKeyBit *)

(** [key.lower()]: only text has the method. *)
Definition py_lower (key : pyval) : result string :=
  match key with
  | VStr s => Ok (lower s)
  | _ => Raise AttributeError
  end.

Definition HeadersKeyBit_get_source_dict (params : params_t)
  (view_instance : option View) (view_method : option Method)
  (request : option Request) (args : list pyval) (kwargs : dict)
  : result dict :=
  request_attr META request.

Definition HeadersKeyBit_prepare_key_for_value_retrieving (key : pyval)
  : result pyval :=
  l <- py_lower key ;; Ok (VStr (prepare_header_name l)).

Definition HeadersKeyBit_prepare_key_for_value_assignment (key : pyval)
  : result pyval :=
  l <- py_lower key ;; Ok (VStr l).

Definition HeadersKeyBit : DictBit := {|
  get_source_dict := HeadersKeyBit_get_source_dict;
  prepare_key_for_value_retrieving :=
    HeadersKeyBit_prepare_key_for_value_retrieving;
  prepare_key_for_value_assignment :=
    HeadersKeyBit_prepare_key_for_value_assignment
|}.

(** *** RequestMetaKeyBit *)

Definition RequestMetaKeyBit_get_source_dict (params : params_t)
  (view_instance : option View) (view_method : option Method)
  (request : option Request) (args : list pyval) (kwargs : dict)
  : result dict :=
  request_attr META request.

Definition RequestMetaKeyBit : DictBit := {|
  get_source_dict := RequestMetaKeyBit_get_source_dict;
  prepare_key_for_value_retrieving :=
    KeyBitDictBase_prepare_key_for_value_retrieving;
  prepare_key_for_value_assignment :=
    KeyBitDictBase_prepare_key_for_value_assignment
|}.

(** *** QueryParamsKeyBit *)

Definition QueryParamsKeyBit_get_source_dict (params : params_t)
  (view_instance : option View) (view_method : option Method)
  (request : option Request) (args : list pyval) (kwargs : dict)
  : result dict :=
  request_attr GET request.

Definition QueryParamsKeyBit : DictBit := {|
  get_source_dict := QueryParamsKeyBit_get_source_dict;
  prepare_key_for_value_retrieving :=
    KeyBitDictBase_prepare_key_for_value_retrieving;
  prepare_key_for_value_assignment :=
    KeyBitDictBase_prepare_key_for_value_assignment
|}.

(** *** PaginationKeyBit

    [kwargs['params']] starts as the empty list and grows by [append]. *)

Definition PaginationKeyBit_params (view_instance : option View)
  : list pyval :=
  let params := [] in
  match view_instance with
  | Some v =>
      match paginator v with
      | Some pg =>                     (* hasattr(view_instance, 'paginator') *)
          let has_page :=
            match pg with Some p => page_query_param p | None => None end in
          let params :=
            match has_page with
            | Some name => (params ++ [name])%list
            | None => params
            end in
          let has_size :=
            match pg with
            | Some p => page_size_query_param p
            | None => None
            end in
          match has_size with
          | Some name => (params ++ [name])%list
          | None => params
          end
      | None => params
      end
  | None => params
  end.

(** [PaginationKeyBit] inherits the three dict methods of
    [QueryParamsKeyBit]. *)
Definition PaginationKeyBit : DictBit := QueryParamsKeyBit.

Definition PaginationKeyBit_get_data (params : params_t)
  (view_instance : option View) (view_method : option Method)
  (request : option Request) (args : list pyval) (kwargs : dict)
  : result fragment :=
  KeyBitDictBase_get_data PaginationKeyBit
    (PList (PaginationKeyBit_params view_instance))
    view_instance view_method request args kwargs.

(** *** KwargsKeyBit *)

Definition KwargsKeyBit_get_source_dict (params : params_t)
  (view_instance : option View) (view_method : option Method)
  (request : option Request) (args : list pyval) (kwargs : dict)
  : result dict :=
  Ok kwargs.

Definition KwargsKeyBit : DictBit := {|
  get_source_dict := KwargsKeyBit_get_source_dict;
  prepare_key_for_value_retrieving :=
    KeyBitDictBase_prepare_key_for_value_retrieving;
  prepare_key_for_value_assignment :=
    KeyBitDictBase_prepare_key_for_value_assignment
|}.

(** *** ModelNameKeyBit *)

Definition ModelNameKeyBit_get_data (params : params_t)
  (view_instance : option View) (view_method : option Method)
  (request : option Request) (args : list pyval) (kwargs : dict)
  : result fragment :=
  model_class <- (if params_truthy params
                  then params_get params (VStr "class")
                  else Ok VNone) ;;
  bit_pieces <-
    (if truthy model_class then
       match model_class with
       | VClass m n => Ok (Some (m, n))
       | _ => Raise AttributeError      (* no __module__ on a plain value *)
       end
     else
       match view_instance with
       | Some v =>
           q1 <- get_queryset v ;;
           q2 <- get_queryset v ;;
           Ok (Some (model_module (model q1), model_name (model q2)))
       | None => Ok None
       end) ;;
  match bit_pieces with
  | Some (m, n) => Ok (FVal (VStr (join_dot [m; n])))
  | None => Ok (FVal DEFAULT_CACHE_ANY_VALUE)
  end.

(** *** SqlQueryKeyBitBase *)

Definition SqlQueryKeyBitBase_get_queryset_query_string (queryset : QuerySet)
  : result fragment :=
  if is_EmptyQuerySet queryset then Ok (FVal VNone)
  else
    try_except
      (s <- query_str queryset ;; Ok (FVal (VStr (force_text (VStr s)))))
      EmptyResultSet
      (Ok (FVal VNone)).

(** *** ModelInstanceKeyBitBase *)

Definition ModelInstanceKeyBitBase_get_queryset_query_values
  (queryset : QuerySet) : result fragment :=
  empty <- (if is_EmptyQuerySet queryset then Ok true
            else n <- count queryset ;; Ok (n =? 0)) ;;
  if (empty : bool) then Ok (FVal VNone)
  else
    try_except
      (s <- values_list_text queryset ;;
       v <- queryset_to_value_list s ;;
       Ok (FVal v))
      EmptyResultSet
      (Ok (FVal VNone)).

(** [view_instance.filter_queryset(view_instance.get_queryset())] *)
Definition view_filtered_queryset (view_instance : option View)
  : result QuerySet :=
  fq <- view_attr filter_queryset view_instance ;;
  gq <- view_attr get_queryset view_instance ;;
  qs <- gq ;;
  fq qs.

(** [view_instance.kwargs[view_instance.lookup_field]] *)
Definition view_lookup_value (view_instance : option View) : result pyval :=
  kw <- view_attr view_kwargs view_instance ;;
  field <- view_attr lookup_field view_instance ;;
  dict_getitem kw (VStr field).

(** [view_instance.filter_queryset(view_instance.get_queryset()).filter(
      lookup_field=lookup_value)] *)
Definition view_lookup_queryset (view_instance : option View)
  (lookup_value : pyval) : result QuerySet :=
  qs <- view_filtered_queryset view_instance ;;
  field <- view_attr lookup_field view_instance ;;
  filter qs field lookup_value.

(** *** ListSqlQueryKeyBit *)

Definition ListSqlQueryKeyBit_get_data (params : params_t)
  (view_instance : option View) (view_method : option Method)
  (request : option Request) (args : list pyval) (kwargs : dict)
  : result fragment :=
  queryset <- view_filtered_queryset view_instance ;;
  SqlQueryKeyBitBase_get_queryset_query_string queryset.

(** *** RetrieveSqlQueryKeyBit *)

Definition RetrieveSqlQueryKeyBit_get_data (params : params_t)
  (view_instance : option View) (view_method : option Method)
  (request : option Request) (args : list pyval) (kwargs : dict)
  : result fragment :=
  lookup_value <- view_lookup_value view_instance ;;
  match view_lookup_queryset view_instance lookup_value with
  | Raise ValueError => Ok (FVal VNone)
  | Raise e => Raise e
  | Ok queryset => SqlQueryKeyBitBase_get_queryset_query_string queryset
  end.

(** *** RetrieveModelKeyBit *)

Definition RetrieveModelKeyBit_get_data (params : params_t)
  (view_instance : option View) (view_method : option Method)
  (request : option Request) (args : list pyval) (kwargs : dict)
  : result fragment :=
  lookup_value <- view_lookup_value view_instance ;;
  match view_lookup_queryset view_instance lookup_value with
  | Raise ValueError => Ok (FVal VNone)
  | Raise e => Raise e
  | Ok queryset => ModelInstanceKeyBitBase_get_queryset_query_values queryset
  end.

(** *** ListModelKeyBit *)

Definition ListModelKeyBit_get_data (params : params_t)
  (view_instance : option View) (view_method : option Method)
  (request : option Request) (args : list pyval) (kwargs : dict)
  : result fragment :=
  queryset <- view_filtered_queryset view_instance ;;
  ModelInstanceKeyBitBase_get_queryset_query_values queryset.

(** *** ArgsKeyBit *)

(** [[args[i] for i in params]] *)
Fixpoint args_comprehension (args : list pyval) (indices : list pyval)
  : result (list pyval) :=
  match indices with
  | [] => Ok []
  | i :: rest =>
      a <- py_getitem args i ;;
      others <- args_comprehension args rest ;;
      Ok (a :: others)
  end.

Definition ArgsKeyBit_get_data (params : params_t)
  (view_instance : option View) (view_method : option Method)
  (request : option Request) (args : list pyval) (kwargs : dict)
  : result fragment :=
  match params with
  | PAll => Ok (FSeq args)
  | PList selector =>
      l <- args_comprehension args selector ;; Ok (FSeq l)
  | PDict options =>
      l <- args_comprehension args (dict_keys options) ;; Ok (FSeq l)
  | PNone => Ok (FSeq [])
  end.

(** *** Every concrete bit behind one entry point *)

Inductive key_bit : Type :=
| UniqueViewId
| UniqueMethodId
| Language
| Format
| UserBit
| Headers
| RequestMeta
| QueryParams
| Pagination
| ModelName
| ListSqlQuery
| RetrieveSqlQuery
| RetrieveModel
| ListModel
| Args
| Kwargs.

Definition get_data (bit : key_bit)
  : params_t -> option View -> option Method -> option Request ->
    list pyval -> dict -> result fragment :=
  match bit with
  | UniqueViewId => UniqueViewIdKeyBit_get_data
  | UniqueMethodId => UniqueMethodIdKeyBit_get_data
  | Language => LanguageKeyBit_get_data
  | Format => FormatKeyBit_get_data
  | UserBit => UserKeyBit_get_data
  | Headers => KeyBitDictBase_get_data HeadersKeyBit
  | RequestMeta => KeyBitDictBase_get_data RequestMetaKeyBit
  | QueryParams => KeyBitDictBase_get_data QueryParamsKeyBit
  | Pagination => PaginationKeyBit_get_data
  | ModelName => ModelNameKeyBit_get_data
  | ListSqlQuery => ListSqlQueryKeyBit_get_data
  | RetrieveSqlQuery => RetrieveSqlQueryKeyBit_get_data
  | RetrieveModel => RetrieveModelKeyBit_get_data
  | ListModel => ListModelKeyBit_get_data
  | Args => ArgsKeyBit_get_data
  | Kwargs => KeyBitDictBase_get_data KwargsKeyBit
  end.

(** The dict-sourced bits and the interface instance each one runs
    [KeyBitDictBase.get_data] with. *)
Definition dict_bit_of (bit : key_bit) : option DictBit :=
  match bit with
  | Headers => Some HeadersKeyBit
  | RequestMeta => Some RequestMetaKeyBit
  | QueryParams => Some QueryParamsKeyBit
  | Pagination => Some PaginationKeyBit
  | Kwargs => Some KwargsKeyBit
  | _ => None
  end.

End Bits.

(** ** Concrete collaborators used by the examples below *)

Module Examples.

(** [str.lower] on ASCII text, where it lowers the letters A to Z and
    leaves every other character alone; the header names of the examples
    are ASCII. *)
Definition ascii_lower (c : ascii) : ascii :=
  let n := nat_of_ascii c in
  if (Nat.leb 65 n && Nat.leb n 90)%bool then ascii_of_nat (n + 32) else c.

Fixpoint lower (s : string) : string :=
  match s with
  | EmptyString => EmptyString
  | String c rest => String (ascii_lower c) (lower rest)
  end.

Definition ascii_upper (c : ascii) : ascii :=
  let n := nat_of_ascii c in
  if (Nat.leb 97 n && Nat.leb n 122)%bool then ascii_of_nat (n - 32) else c.

Fixpoint header_chars (s : string) : string :=
  match s with
  | EmptyString => EmptyString
  | String c rest =>
      String (if Ascii.eqb c "-" then "_"%char else ascii_upper c)
             (header_chars rest)
  end.

(** Modelled from the spec: [rest_framework_extensions.utils.prepare_header_name]
    is not part of [bits.py].  The spec has it map a lower-cased header name
    to the metadata-storage convention, under which selecting
    [Accept-Language] reads the entry [HTTP_ACCEPT_LANGUAGE]: dashes become
    underscores, [http_] is put in front and the whole is upper-cased. *)
Definition prepare_header_name (name : string) : string :=
  ("HTTP_" ++ header_chars name)%string.

(** The settings default of the sentinel. *)
Definition any_value : pyval := VStr "*".

(** [compat.queryset_to_value_list] taken as the identity on the rendered
    text. *)
Definition to_value_list (s : string) : result pyval := Ok (VStr s).

Definition widget : Model :=
  {| model_module := "app.models"; model_name := "Widget" |}.

(** A queryset with two rows whose [filter] rejects every lookup value. *)
Definition widgets : QuerySet :=
  {| is_EmptyQuerySet := false;
     model := widget;
     query_str := Ok "SELECT id FROM widget";
     count := Ok 2;
     values_list_text := Ok "[(1, True), (2, True)]";
     filter := fun _ _ => Raise ValueError |}.

(** [queryset.none()] *)
Definition no_widgets : QuerySet :=
  {| is_EmptyQuerySet := true;
     model := widget;
     query_str := Raise EmptyResultSet;
     count := Ok 0;
     values_list_text := Ok "[]";
     filter := fun _ _ => Raise ValueError |}.

(** A filter that matched no row. *)
Definition zero_rows : QuerySet :=
  {| is_EmptyQuerySet := false;
     model := widget;
     query_str := Ok "SELECT id FROM widget WHERE id = 7";
     count := Ok 0;
     values_list_text := Ok "[]";
     filter := fun _ _ => Raise ValueError |}.

(** A queryset whose compiled query is known to match nothing. *)
Definition unsatisfiable : QuerySet :=
  {| is_EmptyQuerySet := false;
     model := widget;
     query_str := Raise EmptyResultSet;
     count := Ok 1;
     values_list_text := Raise EmptyResultSet;
     filter := fun _ _ => Raise ValueError |}.

(** A queryset whose lookup filter rejects the type of the lookup value. *)
Definition strict_widgets : QuerySet :=
  {| is_EmptyQuerySet := false;
     model := widget;
     query_str := Ok "SELECT id FROM widget";
     count := Ok 2;
     values_list_text := Ok "[(1, True), (2, True)]";
     filter := fun _ _ => Raise TypeError |}.

(** A queryset whose lookup filter matches no row. *)
Definition lookup_widgets : QuerySet :=
  {| is_EmptyQuerySet := false;
     model := widget;
     query_str := Ok "SELECT id FROM widget";
     count := Ok 2;
     values_list_text := Ok "[(1, True), (2, True)]";
     filter := fun _ _ => Ok zero_rows |}.

(** A view over a given queryset, looked up by [pk = 7]. *)
Definition view_over (queryset : QuerySet) : View :=
  {| view_module := "app.views";
     view_class_name := "WidgetView";
     view_kwargs := [(VStr "pk", VStr "7")];
     lookup_field := "pk";
     paginator := None;
     get_queryset := Ok queryset;
     filter_queryset := fun qs => Ok qs |}.

Definition size_only : Paginator :=
  {| page_query_param := None;
     page_size_query_param := Some (VStr "page_size") |}.

Definition widget_view : View :=
  {| view_module := "app.views";
     view_class_name := "WidgetView";
     view_kwargs := [(VStr "pk", VStr "abc")];
     lookup_field := "pk";
     paginator := Some (Some size_only);
     get_queryset := Ok widgets;
     filter_queryset := fun qs => Ok qs |}.

(** The same view without a [paginator] attribute. *)
Definition plain_view : View :=
  {| view_module := "app.views";
     view_class_name := "WidgetView";
     view_kwargs := [(VStr "pk", VStr "abc")];
     lookup_field := "pk";
     paginator := None;
     get_queryset := Ok widgets;
     filter_queryset := fun qs => Ok qs |}.

(** A page-number paginator as the framework ships it: a page parameter, and
    a page-size parameter name left at [None]. *)
Definition page_number_pagination : Paginator :=
  {| page_query_param := Some (VStr "page");
     page_size_query_param := Some VNone |}.

Definition paged_view : View :=
  {| view_module := "app.views";
     view_class_name := "WidgetView";
     view_kwargs := [];
     lookup_field := "pk";
     paginator := Some (Some page_number_pagination);
     get_queryset := Ok widgets;
     filter_queryset := fun qs => Ok qs |}.

(** A queryset whose SQL rendering fails on a value. *)
Definition unrenderable : QuerySet :=
  {| is_EmptyQuerySet := false;
     model := widget;
     query_str := Raise ValueError;
     count := Raise EmptyResultSet;
     values_list_text := Ok "[]";
     filter := fun _ _ => Raise TypeError |}.

(** A queryset whose lookup filter yields [unrenderable]. *)
Definition lookup_unrenderable : QuerySet :=
  {| is_EmptyQuerySet := false;
     model := widget;
     query_str := Ok "SELECT id FROM widget";
     count := Ok 2;
     values_list_text := Ok "[(1, True), (2, True)]";
     filter := fun _ _ => Ok unrenderable |}.

(** A view whose [get_queryset] fails. *)
Definition failing_view (e : pyexc) : View :=
  {| view_module := "app.views";
     view_class_name := "WidgetView";
     view_kwargs := [(VStr "pk", VStr "7")];
     lookup_field := "pk";
     paginator := None;
     get_queryset := Raise e;
     filter_queryset := fun qs => Ok qs |}.

(** A view whose URL has no [pk] keyword argument. *)
Definition unrouted_view : View :=
  {| view_module := "app.views";
     view_class_name := "WidgetView";
     view_kwargs := [(VStr "slug", VStr "w")];
     lookup_field := "pk";
     paginator := None;
     get_queryset := Ok widgets;
     filter_queryset := fun qs => Ok qs |}.

Definition list_method : Method := {| method_name := "list" |}.

Definition paged_request : Request :=
  {| accepted_renderer := {| format := VStr "json" |};
     user := Some (Some {| pk := VInt 10; is_authenticated := true |});
     META := [(VStr "HTTP_ACCEPT_LANGUAGE", VStr "ru")];
     GET := [(VStr "page_size", VStr "100"); (VStr "page", VStr "1")] |}.

Definition anonymous_request : Request :=
  {| accepted_renderer := {| format := VStr "json" |};
     user := Some (Some {| pk := VNone; is_authenticated := false |});
     META := [];
     GET := [] |}.

End Examples.

(** ** What the spec says a dict-sourced bit writes

    [writes] lists, in selector order, the (assignment key, text) pairs of
    the selected keys whose looked-up value is not [None]; [first_occurrences]
    keeps the first occurrence of every element of a list. *)

Fixpoint writes (self : DictBit) (source_dict : dict) (keys : list pyval)
  : list (pyval * pyval) :=
  match keys with
  | [] => []
  | key :: rest =>
      match prepare_key_for_value_retrieving self key,
            prepare_key_for_value_assignment self key with
      | Ok rkey, Ok akey =>
          if is_none (dict_get source_dict rkey)
          then writes self source_dict rest
          else (akey, VStr (force_text (dict_get source_dict rkey)))
                 :: writes self source_dict rest
      | _, _ => writes self source_dict rest
      end
  end.

Definition mem (x : pyval) (l : list pyval) : bool :=
  existsb (pyval_eqb x) l.

Fixpoint dedup_from (seen l : list pyval) : list pyval :=
  match l with
  | [] => []
  | x :: rest =>
      if mem x seen then dedup_from seen rest
      else x :: dedup_from (seen ++ [x]) rest
  end.

Definition first_occurrences (l : list pyval) : list pyval := dedup_from [] l.

(** Both key transforms are defined on every key of [keys]. *)
Definition transforms_defined (self : DictBit) (keys : list pyval) : bool :=
  forallb (fun key => is_ok (prepare_key_for_value_retrieving self key)
                      && is_ok (prepare_key_for_value_assignment self key))
          keys.

(** The selector a dict-sourced bit really iterates: [PaginationKeyBit]
    replaces the one it is given. *)
Definition effective_params (bit : key_bit) (params : params_t)
  (view_instance : option View) : params_t :=
  match bit with
  | Pagination => PList (PaginationKeyBit_params view_instance)
  | _ => params
  end.

(** Modelled on the spec's words for the Pagination bit: the page parameter
    name when the paginator has one, then the page-size parameter name when
    it has one. *)
Definition discovered_names (view_instance : option View) : list pyval :=
  match view_instance with
  | Some v =>
      match paginator v with
      | Some (Some p) =>
          (match page_query_param p with Some n => [n] | None => [] end)
          ++ (match page_size_query_param p with Some n => [n] | None => [] end)
      | _ => []
      end
  | None => []
  end.

(** [data] after a run of assignments *)
Definition assign_all (ws : list (pyval * pyval)) (data : dict) : dict :=
  fold_left (fun d w => dict_set d (fst w) (snd w)) ws data.

(** [params] carries no usable model-class override: it is falsy, or it is a
    mapping whose ["class"] entry is missing or falsy. *)
Definition no_override (params : params_t) : Prop :=
  params_truthy params = false \/
  exists options, params = PDict options /\
                  truthy (dict_get options (VStr "class")) = false.

(** The queryset a queryset-derived bit serialises. *)
Definition derived_queryset (bit : key_bit) (view_instance : option View)
  : result QuerySet :=
  match bit with
  | ListSqlQuery | ListModel => view_filtered_queryset view_instance
  | RetrieveSqlQuery | RetrieveModel =>
      lookup_value <- view_lookup_value view_instance ;;
      view_lookup_queryset view_instance lookup_value
  | _ => Raise NotImplementedError
  end.

Definition sql_text_family (bit : key_bit) : bool :=
  match bit with ListSqlQuery | RetrieveSqlQuery => true | _ => false end.

Definition model_content_family (bit : key_bit) : bool :=
  match bit with ListModel | RetrieveModel => true | _ => false end.

(** Empty by construction: an [EmptyQuerySet], or a queryset whose compiled
    query raises [EmptyResultSet] when the bit renders it (the SQL text for
    the SQL-text family, the row values for the model-content family, which
    first asks for the row count). *)
Definition empty_by_construction (bit : key_bit) (queryset : QuerySet) : Prop :=
  is_EmptyQuerySet queryset = true \/
  (sql_text_family bit = true /\ query_str queryset = Raise EmptyResultSet) \/
  (model_content_family bit = true /\
   (exists n, count queryset = Ok n) /\
   values_list_text queryset = Raise EmptyResultSet).

(** The identity-transform bits that honour the wildcard. *)
Definition plain_dict_bit (bit : key_bit) : bool :=
  match bit with RequestMeta | QueryParams | Kwargs => true | _ => false end.

(** The source mapping of each dict-sourced bit. *)
Definition source_of (bit : key_bit) (request : option Request) (kwargs : dict)
  : result dict :=
  match bit with
  | Headers | RequestMeta => request_attr META request
  | QueryParams | Pagination => request_attr GET request
  | Kwargs => Ok kwargs
  | _ => Raise NotImplementedError
  end.

(** [args[i]] for an index that is a valid position, counted from the end
    when negative. *)
Definition arg_at (args : list pyval) (i : Z) : pyval :=
  nth (Z.to_nat (i mod Z.of_nat (List.length args))) args VNone.

Definition valid_index (args : list pyval) (i : Z) : Prop :=
  - Z.of_nat (List.length args) <= i < Z.of_nat (List.length args).

(** The text rendering of a source entry. *)
Definition text_entry (entry : pyval * pyval) : pyval * pyval :=
  (fst entry, VStr (force_text (snd entry))).

(** The wildcard claim, read for every dict-sourced bit: over a well-formed
    source mapping without null values the output has as many entries as the
    source. *)
Definition wildcard_keeps_every_entry : Prop :=
  forall (any_value language : pyval) (lower header_name : string -> string)
         (to_value_list : string -> result pyval) (bit : key_bit)
         (self : DictBit) (view_instance : option View)
         (view_method : option Method) (request : option Request)
         (args : list pyval) (kwargs : dict) (source_dict : dict),
    dict_bit_of lower header_name bit = Some self ->
    source_of bit request kwargs = Ok source_dict ->
    dict_wf source_dict ->
    (forall k v, In (k, v) source_dict -> v <> VNone) ->
    exists data,
      get_data any_value language lower header_name to_value_list bit PAll
        view_instance view_method request args kwargs = Ok (FDict data)
      /\ List.length data = List.length source_dict.

(** The absent-context claim, read for every bit: a null view, method or
    request makes [get_data] return the sentinel. *)
Definition degrades_to_sentinel_everywhere : Prop :=
  forall (any_value language : pyval) (lower header_name : string -> string)
         (to_value_list : string -> result pyval) (bit : key_bit)
         (params : params_t) (view_instance : option View)
         (view_method : option Method) (request : option Request)
         (args : list pyval) (kwargs : dict),
    view_instance = None \/ view_method = None \/ request = None ->
    get_data any_value language lower header_name to_value_list bit params
      view_instance view_method request args kwargs = Ok (FVal any_value).

(** The part of the context a bit with a sentinel fallback reads is null. *)
Definition context_absent (bit : key_bit) (view_instance : option View)
  (view_method : option Method) (request : option Request) : Prop :=
  match bit with
  | UniqueViewId => view_instance = None
  | UniqueMethodId => view_instance = None \/ view_method = None
  | Format | UserBit => request = None
  | ModelName => view_instance = None
  | _ => False
  end.

(** The entries of a mapping whose value is not null. *)
Definition non_null_entries (d : dict) : dict :=
  List.filter (fun entry => negb (is_none (snd entry))) d.

(** The dict-sourced bits that read their source mapping off the request. *)
Definition request_sourced (bit : key_bit) : bool :=
  match bit with
  | Headers | RequestMeta | QueryParams | Pagination => true
  | _ => false
  end.


(** The names [PaginationKeyBit] selects when the paginator's page-size
    attribute is left out. *)
Definition page_name_only (p : Paginator) : list pyval :=
  match page_query_param p with Some name => [name] | None => [] end.

(** The exception classes under which the coercion of a lookup value to the
    type of the model field fails. *)
Definition coercion_failure (e : pyexc) : Prop :=
  e = ValueError \/ e = TypeError.

(** The malformed-lookup claim, read for every coercion failure: whatever
    class the failed filter raises, a Retrieve bit returns null. *)
Definition malformed_lookup_never_propagates : Prop :=
  forall (any_value language : pyval) (lower header_name : string -> string)
         (to_value_list : string -> result pyval) (bit : key_bit)
         (params : params_t) (view_method : option Method)
         (request : option Request) (args : list pyval) (kwargs : dict)
         (v : View) (lookup_value : pyval) (base filtered : QuerySet)
         (e : pyexc),
    bit = RetrieveSqlQuery \/ bit = RetrieveModel ->
    dict_lookup (view_kwargs v) (VStr (lookup_field v)) = Some lookup_value ->
    get_queryset v = Ok base ->
    filter_queryset v base = Ok filtered ->
    filter filtered (lookup_field v) lookup_value = Raise e ->
    coercion_failure e ->
    get_data any_value language lower header_name to_value_list bit params
      (Some v) view_method request args kwargs = Ok (FVal VNone).

(** ** Lemmas on values and dicts *)

Lemma pyval_eqb_spec (a b : pyval) : reflect (a = b) (pyval_eqb a b).
Proof.
  destruct a as [|s|x|m n], b as [|t|y|m' n']; simpl;
    try (constructor; congruence).
  - destruct (String.eqb_spec s t); constructor; congruence.
  - destruct (Z.eqb_spec x y); constructor; congruence.
  - destruct (String.eqb_spec m m'), (String.eqb_spec n n'); simpl;
      constructor; congruence.
Qed.

Lemma pyval_eqb_refl (a : pyval) : pyval_eqb a a = true.
Proof. destruct (pyval_eqb_spec a a); congruence. Qed.

Lemma pyval_eqb_eq (a b : pyval) : pyval_eqb a b = true <-> a = b.
Proof. destruct (pyval_eqb_spec a b); split; congruence. Qed.

Lemma pyval_eqb_neq (a b : pyval) : pyval_eqb a b = false <-> a <> b.
Proof. destruct (pyval_eqb_spec a b); split; congruence. Qed.

Lemma mem_In (x : pyval) (l : list pyval) : mem x l = true <-> In x l.
Proof.
  unfold mem. rewrite existsb_exists. split.
  - intros [y [Hy He]]. apply pyval_eqb_eq in He. now subst.
  - intros H. exists x. split; [assumption | apply pyval_eqb_refl].
Qed.

Lemma mem_app (x : pyval) (l1 l2 : list pyval) :
  mem x (l1 ++ l2) = mem x l1 || mem x l2.
Proof. unfold mem. apply existsb_app. Qed.

Lemma dict_lookup_set_same (d : dict) (k v : pyval) :
  dict_lookup (dict_set d k v) k = Some v.
Proof.
  induction d as [|[k' v'] d IH]; simpl.
  - now rewrite pyval_eqb_refl.
  - destruct (pyval_eqb k' k) eqn:E; simpl; rewrite E; [reflexivity | exact IH].
Qed.

Lemma dict_lookup_set_other (d : dict) (k v k0 : pyval) :
  k <> k0 -> dict_lookup (dict_set d k v) k0 = dict_lookup d k0.
Proof.
  intros Hne. induction d as [|[k' v'] d IH]; simpl.
  - apply pyval_eqb_neq in Hne. now rewrite Hne.
  - destruct (pyval_eqb k' k) eqn:E; simpl.
    + apply pyval_eqb_eq in E. subst k'.
      apply pyval_eqb_neq in Hne. now rewrite Hne.
    + now rewrite IH.
Qed.

Lemma dict_keys_set (d : dict) (k v : pyval) :
  dict_keys (dict_set d k v) =
  if mem k (dict_keys d) then dict_keys d else (dict_keys d ++ [k])%list.
Proof.
  unfold dict_keys, mem.
  induction d as [|[k' v'] d IH]; simpl; [reflexivity|].
  destruct (pyval_eqb_spec k' k) as [->|Hne]; simpl.
  - now rewrite pyval_eqb_refl.
  - assert (pyval_eqb k k' = false) as E' by (apply pyval_eqb_neq; congruence).
    rewrite E', IH. simpl.
    now destruct (existsb (pyval_eqb k) (map fst d)).
Qed.

Lemma dict_lookup_In (d : dict) (k : pyval) :
  In k (dict_keys d) <-> dict_lookup d k <> None.
Proof.
  induction d as [|[k' v'] d IH]; simpl.
  - split; [intros [] | congruence].
  - destruct (pyval_eqb_spec k' k) as [->|Hne].
    + split; [congruence | auto].
    + rewrite <- IH. split; [intros [H|H]; [congruence | exact H] | auto].
Qed.

Lemma dict_lookup_wf_head (d1 d2 : dict) (k v : pyval) :
  dict_wf (d1 ++ (k, v) :: d2) -> dict_lookup (d1 ++ (k, v) :: d2) k = Some v.
Proof.
  unfold dict_wf, dict_keys. induction d1 as [|[k' v'] d1 IH]; simpl; intros Hwf.
  - now rewrite pyval_eqb_refl.
  - inversion Hwf as [|? ? Hnotin Hrest]; subst.
    destruct (pyval_eqb_spec k' k) as [->|Hne].
    + exfalso. apply Hnotin. rewrite map_app. apply in_or_app. right. now left.
    + apply IH. exact Hrest.
Qed.

Lemma assign_all_keys (ws : list (pyval * pyval)) (data : dict) :
  dict_keys (assign_all ws data) =
  (dict_keys data ++ dedup_from (dict_keys data) (map fst ws))%list.
Proof.
  revert data. induction ws as [|[a v] ws IH]; intros data; simpl.
  - now rewrite app_nil_r.
  - unfold assign_all in *. simpl. rewrite IH, dict_keys_set.
    destruct (mem a (dict_keys data)); [reflexivity|].
    now rewrite <- app_assoc.
Qed.

Lemma assign_all_lookup_other (ws : list (pyval * pyval)) (data : dict)
  (a : pyval) :
  ~ In a (map fst ws) ->
  dict_lookup (assign_all ws data) a = dict_lookup data a.
Proof.
  revert data. induction ws as [|[b v] ws IH]; intros data Hnot; simpl.
  - reflexivity.
  - unfold assign_all in *. simpl. rewrite IH.
    + apply dict_lookup_set_other. intros ->. apply Hnot. now left.
    + intros H. apply Hnot. now right.
Qed.

Lemma assign_all_last_write (pre post : list (pyval * pyval)) (data : dict)
  (a v : pyval) :
  ~ In a (map fst post) ->
  dict_lookup (assign_all (pre ++ (a, v) :: post) data) a = Some v.
Proof.
  intros Hnot. unfold assign_all. rewrite fold_left_app. simpl.
  fold (assign_all post
          (dict_set (fold_left (fun d w => dict_set d (fst w) (snd w)) pre data)
                    a v)).
  rewrite assign_all_lookup_other by exact Hnot.
  apply dict_lookup_set_same.
Qed.

Lemma assign_all_lookup_origin (ws : list (pyval * pyval)) (data : dict)
  (a v : pyval) :
  dict_lookup (assign_all ws data) a = Some v ->
  In (a, v) ws \/ dict_lookup data a = Some v.
Proof.
  revert data. induction ws as [|[b w] ws IH]; intros data H; simpl in *.
  - now right.
  - unfold assign_all in *. simpl in H. apply IH in H. destruct H as [H|H].
    + left. now right.
    + destruct (pyval_eqb_spec b a) as [->|Hne].
      * rewrite dict_lookup_set_same in H. left. left. congruence.
      * rewrite dict_lookup_set_other in H by exact Hne. now right.
Qed.

(** ** The loop of [KeyBitDictBase.get_data] *)

Lemma KeyBitDictBase_loop_writes (self : DictBit) (source_dict : dict)
  (keys : list pyval) (data : dict) :
  transforms_defined self keys = true ->
  KeyBitDictBase_loop self source_dict keys data =
  Ok (assign_all (writes self source_dict keys) data).
Proof.
  revert data. induction keys as [|key rest IH]; intros data Hdef; simpl.
  - reflexivity.
  - simpl in Hdef. apply andb_prop in Hdef. destruct Hdef as [Hkey Hrest].
    apply andb_prop in Hkey. destruct Hkey as [Hr Ha].
    destruct (prepare_key_for_value_retrieving self key) as [rkey|];
      [|discriminate].
    destruct (prepare_key_for_value_assignment self key) as [akey|];
      [|discriminate].
    simpl. destruct (is_none (dict_get source_dict rkey)).
    + apply IH. exact Hrest.
    + rewrite IH by exact Hrest. reflexivity.
Qed.

Lemma writes_app (self : DictBit) (source_dict : dict) (l1 l2 : list pyval) :
  writes self source_dict (l1 ++ l2) =
  writes self source_dict l1 ++ writes self source_dict l2.
Proof.
  induction l1 as [|key rest IH]; simpl; [reflexivity|].
  destruct (prepare_key_for_value_retrieving self key) as [rkey|]; [|exact IH].
  destruct (prepare_key_for_value_assignment self key) as [akey|]; [|exact IH].
  destruct (is_none (dict_get source_dict rkey)); [exact IH|].
  simpl. now rewrite IH.
Qed.

Lemma writes_In (self : DictBit) (source_dict : dict) (keys : list pyval)
  (a v : pyval) :
  In (a, v) (writes self source_dict keys) ->
  exists key rkey,
    In key keys /\
    prepare_key_for_value_retrieving self key = Ok rkey /\
    prepare_key_for_value_assignment self key = Ok a /\
    dict_get source_dict rkey <> VNone /\
    v = VStr (force_text (dict_get source_dict rkey)).
Proof.
  induction keys as [|key rest IH]; simpl; [intros []|].
  intros H.
  assert (In (a, v) (writes self source_dict rest) ->
          exists key0 rkey,
            (key = key0 \/ In key0 rest) /\
            prepare_key_for_value_retrieving self key0 = Ok rkey /\
            prepare_key_for_value_assignment self key0 = Ok a /\
            dict_get source_dict rkey <> VNone /\
            v = VStr (force_text (dict_get source_dict rkey))) as Hrest.
  { intros Hin. destruct (IH Hin) as [k [rk [Hk Hprops]]].
    exists k, rk. split; [now right | exact Hprops]. }
  destruct (prepare_key_for_value_retrieving self key) as [rkey|] eqn:Er;
    [|now apply Hrest].
  destruct (prepare_key_for_value_assignment self key) as [akey|] eqn:Ea;
    [|now apply Hrest].
  destruct (is_none (dict_get source_dict rkey)) eqn:En; [now apply Hrest|].
  destruct H as [H|H]; [|now apply Hrest].
  inversion H; subst. exists key, rkey. repeat split; auto.
  intros Hnone. rewrite Hnone in En. discriminate.
Qed.

Lemma is_none_false (v : pyval) : is_none v = false <-> v <> VNone.
Proof. destruct v; simpl; split; congruence. Qed.

(** ** PaginationKeyBit *)

Lemma PaginationKeyBit_params_discovered (view_instance : option View) :
  PaginationKeyBit_params view_instance = discovered_names view_instance.
Proof.
  unfold PaginationKeyBit_params, discovered_names.
  destruct view_instance as [v|]; [|reflexivity].
  destruct (paginator v) as [[p|]|]; try reflexivity.
  destruct (page_query_param p), (page_size_query_param p); reflexivity.
Qed.

(** C2: the Pagination bit runs the dict-source loop over the query
    parameters with exactly the names discovered on the view's paginator
    (page name, then page-size name, each when present) as its selector,
    whatever selector it was configured with; with a paginator that has only
    the page-size parameter [page_size] and the query string
    [{page_size: 100, page: 1}] the result is [{page_size: 100}]. *)
Theorem PaginationKeyBit_selects_discovered_names
  (params : params_t) (view_instance : option View)
  (view_method : option Method) (request : option Request)
  (args : list pyval) (kwargs : dict) :
  PaginationKeyBit_get_data params view_instance view_method request args kwargs
  = KeyBitDictBase_get_data QueryParamsKeyBit
      (PList (discovered_names view_instance))
      view_instance view_method request args kwargs
  /\ (forall params',
        PaginationKeyBit_get_data params view_instance view_method request
          args kwargs
        = PaginationKeyBit_get_data params' view_instance view_method request
            args kwargs)
  /\ (forall v r,
        view_instance = Some v ->
        request = Some r ->
        paginator v = Some (Some {| page_query_param := None;
                                    page_size_query_param :=
                                      Some (VStr "page_size") |}) ->
        GET r = [(VStr "page_size", VStr "100"); (VStr "page", VStr "1")] ->
        PaginationKeyBit_get_data params view_instance view_method request
          args kwargs
        = Ok (FDict [(VStr "page_size", VStr "100")])).
Proof.
  split; [|split].
  - unfold PaginationKeyBit_get_data, PaginationKeyBit.
    now rewrite PaginationKeyBit_params_discovered.
  - reflexivity.
  - intros v r -> -> Hpag Hget.
    unfold PaginationKeyBit_get_data, PaginationKeyBit_params.
    rewrite Hpag. simpl. rewrite Hget. reflexivity.
Qed.

Lemma PaginationKeyBit_selects_discovered_names_witness :
  PaginationKeyBit_get_data PAll (Some Examples.widget_view)
    (Some Examples.list_method) (Some Examples.paged_request) [] []
  = Ok (FDict [(VStr "page_size", VStr "100")]).
Proof.
  refine (proj2 (proj2 (PaginationKeyBit_selects_discovered_names PAll
            (Some Examples.widget_view) (Some Examples.list_method)
            (Some Examples.paged_request) [] []))
          Examples.widget_view Examples.paged_request _ _ _ _);
    reflexivity.
Defined.

(** ** UserKeyBit *)

(** C8: the User bit returns the sentinel when the request is null, the text
    [anonymous] when the request has no [user] attribute, a null user or a
    user that is not authenticated, and the text of the user's id when the
    user is authenticated ([10] gives ["10"]). *)
Theorem UserKeyBit_get_data_cases
  (DEFAULT_CACHE_ANY_VALUE : pyval) (params : params_t)
  (view_instance : option View) (view_method : option Method)
  (args : list pyval) (kwargs : dict) :
  UserKeyBit_get_data DEFAULT_CACHE_ANY_VALUE params view_instance view_method
    None args kwargs = Ok (FVal DEFAULT_CACHE_ANY_VALUE)
  /\ (forall r,
        (user r = None \/ user r = Some None \/
         exists u, user r = Some (Some u) /\ is_authenticated u = false) ->
        UserKeyBit_get_data DEFAULT_CACHE_ANY_VALUE params view_instance
          view_method (Some r) args kwargs = Ok (FVal (VStr "anonymous")))
  /\ (forall r u,
        user r = Some (Some u) -> is_authenticated u = true ->
        UserKeyBit_get_data DEFAULT_CACHE_ANY_VALUE params view_instance
          view_method (Some r) args kwargs
        = Ok (FVal (VStr (force_text (pk u)))))
  /\ force_text (VInt 10) = "10".
Proof.
  repeat split.
  - intros r [H|[H|[u [H Hauth]]]]; unfold UserKeyBit_get_data; rewrite H;
      try reflexivity.
    now rewrite Hauth.
  - intros r u H Hauth. unfold UserKeyBit_get_data. now rewrite H, Hauth.
Qed.

Lemma UserKeyBit_get_data_cases_witness :
  UserKeyBit_get_data Examples.any_value PNone None None
    (Some Examples.anonymous_request) [] [] = Ok (FVal (VStr "anonymous"))
  /\ UserKeyBit_get_data Examples.any_value PNone None None
       (Some Examples.paged_request) [] [] = Ok (FVal (VStr "10")).
Proof.
  pose proof (UserKeyBit_get_data_cases Examples.any_value PNone None None
                [] []) as [_ [Hanon [Hauth _]]].
  split.
  - apply Hanon. right. right. eexists. split; reflexivity.
  - exact (Hauth Examples.paged_request _ eq_refl eq_refl).
Defined.

(** ** ArgsKeyBit *)

Lemma py_getitem_valid (args : list pyval) (i : Z) :
  valid_index args i -> py_getitem args (VInt i) = Ok (arg_at args i).
Proof.
  unfold valid_index, py_getitem, arg_at. intros Hi.
  set (n := Z.of_nat (List.length args)) in *.
  assert (i mod n = if i <? 0 then i + n else i) as Hmod.
  { destruct (Z.ltb_spec i 0).
    - symmetry. apply Z.mod_unique with (q := -1); lia.
    - apply Z.mod_small. lia. }
  rewrite Hmod.
  set (pos := if i <? 0 then i + n else i) in *.
  assert (0 <= pos < n) as Hpos.
  { unfold pos. destruct (Z.ltb_spec i 0); lia. }
  destruct (Z.ltb_spec pos 0); [lia|].
  destruct (Z.leb_spec n pos); [lia|]. simpl.
  destruct (nth_error args (Z.to_nat pos)) eqn:E.
  - now rewrite (nth_error_nth _ _ VNone E).
  - apply nth_error_None in E. unfold n in *. lia.
Qed.

Lemma args_comprehension_valid (args : list pyval) (indices : list Z) :
  Forall (valid_index args) indices ->
  args_comprehension args (map VInt indices) = Ok (map (arg_at args) indices).
Proof.
  induction 1 as [|i rest Hi Hrest IH]; cbn [map args_comprehension];
    [reflexivity|].
  rewrite (py_getitem_valid _ _ Hi). cbn [bind]. now rewrite IH.
Qed.

(** C9: the Args bit returns the whole positional-argument sequence for the
    wildcard, the empty sequence when the selector is absent, and for a list
    of valid indices the arguments at those indices in selector order, also
    when the indices are not increasing: [(a, b, c)] with [[0, 2]] gives
    [[a, c]] and with [[2, 0]] gives [[c, a]]. *)
Theorem ArgsKeyBit_get_data_selects
  (view_instance : option View) (view_method : option Method)
  (request : option Request) (args : list pyval) (kwargs : dict) :
  ArgsKeyBit_get_data PAll view_instance view_method request args kwargs
  = Ok (FSeq args)
  /\ ArgsKeyBit_get_data PNone view_instance view_method request args kwargs
     = Ok (FSeq [])
  /\ (forall indices,
        Forall (valid_index args) indices ->
        ArgsKeyBit_get_data (PList (map VInt indices)) view_instance
          view_method request args kwargs
        = Ok (FSeq (map (arg_at args) indices)))
  /\ (forall a b c,
        ArgsKeyBit_get_data (PList [VInt 0; VInt 2]) view_instance view_method
          request [a; b; c] kwargs = Ok (FSeq [a; c])
        /\ ArgsKeyBit_get_data (PList [VInt 2; VInt 0]) view_instance
             view_method request [a; b; c] kwargs = Ok (FSeq [c; a])).
Proof.
  repeat split.
  intros indices Hvalid. unfold ArgsKeyBit_get_data.
  now rewrite (args_comprehension_valid _ _ Hvalid).
Qed.

Lemma ArgsKeyBit_get_data_selects_witness :
  ArgsKeyBit_get_data (PList (map VInt [2; 0; -1])) None None None
    [VStr "a"; VStr "b"; VStr "c"] []
  = Ok (FSeq [VStr "c"; VStr "a"; VStr "c"]).
Proof.
  apply (proj1 (proj2 (proj2 (ArgsKeyBit_get_data_selects None None None
                                [VStr "a"; VStr "b"; VStr "c"] [])))
           [2; 0; -1]).
  repeat constructor; unfold valid_index; simpl; lia.
Defined.

Lemma py_getitem_raises (args : list pyval) (i : pyval) (e : pyexc) :
  py_getitem args i = Raise e -> e = IndexError \/ e = TypeError.
Proof.
  unfold py_getitem. destruct i; try (intros H; inversion H; now right).
  destruct ((_ <? 0) || (_ <=? _)); [intros H; inversion H; now left|].
  destruct (nth_error _ _); [discriminate | intros H; inversion H; now left].
Qed.

Lemma py_getitem_out_of_range (args : list pyval) (i : Z) :
  Z.of_nat (List.length args) <= i -> py_getitem args (VInt i) = Raise IndexError.
Proof.
  intros Hi. unfold py_getitem.
  destruct (Z.ltb_spec i 0); [lia|].
  destruct (Z.ltb_spec i 0); [lia|].
  destruct (Z.leb_spec (Z.of_nat (List.length args)) i); [reflexivity | lia].
Qed.

(** C10: with an explicit selector the Args bit is defined only when every
    index is a valid position: as soon as the selector holds an index that
    is at least the number of positional arguments, the call raises
    ([IndexError], or [TypeError] when an earlier selector element is not an
    integer) and returns no fragment at all. *)
Theorem ArgsKeyBit_get_data_index_out_of_range
  (view_instance : option View) (view_method : option Method)
  (request : option Request) (args : list pyval) (kwargs : dict)
  (selector : list pyval) (i : Z) :
  In (VInt i) selector ->
  Z.of_nat (List.length args) <= i ->
  exists e,
    ArgsKeyBit_get_data (PList selector) view_instance view_method request
      args kwargs = Raise e
    /\ (e = IndexError \/ e = TypeError).
Proof.
  intros Hin Hi. unfold ArgsKeyBit_get_data.
  assert (exists e, args_comprehension args selector = Raise e
                    /\ (e = IndexError \/ e = TypeError)) as [e [He Hkind]].
  { induction selector as [|j rest IH]; [destruct Hin|].
    cbn [args_comprehension].
    destruct (py_getitem args j) as [a|e] eqn:Ej.
    - destruct Hin as [->|Hin].
      + rewrite (py_getitem_out_of_range _ _ Hi) in Ej. discriminate.
      + destruct (IH Hin) as [e [He Hkind]]. exists e. simpl. rewrite He.
        now split.
    - exists e. split; [reflexivity | exact (py_getitem_raises _ _ _ Ej)]. }
  exists e. rewrite He. now split.
Qed.

Lemma ArgsKeyBit_get_data_index_out_of_range_witness :
  exists e,
    ArgsKeyBit_get_data (PList [VInt 0; VInt 3]) None None None
      [VStr "a"; VStr "b"; VStr "c"] [] = Raise e
    /\ (e = IndexError \/ e = TypeError).
Proof.
  apply (ArgsKeyBit_get_data_index_out_of_range None None None
           [VStr "a"; VStr "b"; VStr "c"] [] [VInt 0; VInt 3] 3).
  - right. left. reflexivity.
  - simpl. lia.
Defined.

(** ** ModelNameKeyBit *)

Lemma truthy_not_none (v : pyval) : truthy v = true -> v <> VNone.
Proof. destruct v; simpl; congruence. Qed.

Lemma no_override_model_class (params : params_t) :
  no_override params ->
  exists model_class,
    (if params_truthy params
     then params_get params (VStr "class")
     else Ok VNone) = Ok model_class
    /\ truthy model_class = false.
Proof.
  intros [Hfalsy|[options [-> Hclass]]].
  - rewrite Hfalsy. now exists VNone.
  - simpl. destruct (negb _); [now eexists | now exists VNone].
Qed.

(** C7: the ModelName bit takes the class under ["class"] in [params] when
    there is one, and then returns its [module.Name] whatever the view is;
    without an override it returns the [module.Name] of the model of the
    view's queryset when a view is present, and the sentinel when the view is
    null. *)
Theorem ModelNameKeyBit_resolution_order
  (DEFAULT_CACHE_ANY_VALUE : pyval) (params : params_t)
  (view_instance : option View) (view_method : option Method)
  (request : option Request) (args : list pyval) (kwargs : dict) :
  (forall options m n,
     params = PDict options ->
     dict_get options (VStr "class") = VClass m n ->
     ModelNameKeyBit_get_data DEFAULT_CACHE_ANY_VALUE params view_instance
       view_method request args kwargs
     = Ok (FVal (VStr (join_dot [m; n]))))
  /\ (forall v queryset,
        no_override params ->
        view_instance = Some v ->
        get_queryset v = Ok queryset ->
        ModelNameKeyBit_get_data DEFAULT_CACHE_ANY_VALUE params view_instance
          view_method request args kwargs
        = Ok (FVal (VStr (join_dot [model_module (model queryset);
                                    model_name (model queryset)]))))
  /\ (no_override params ->
      view_instance = None ->
      ModelNameKeyBit_get_data DEFAULT_CACHE_ANY_VALUE params view_instance
        view_method request args kwargs
      = Ok (FVal DEFAULT_CACHE_ANY_VALUE)).
Proof.
  pose proof no_override_model_class as Hno.
  split; [|split].
  - intros options m n -> Hclass. unfold ModelNameKeyBit_get_data.
    assert (params_truthy (PDict options) = true) as ->.
    { destruct options; [discriminate Hclass | reflexivity]. }
    simpl. now rewrite Hclass.
  - intros v queryset Hparams -> Hqs. unfold ModelNameKeyBit_get_data.
    destruct (Hno _ Hparams) as [mc [-> Hmc]]. simpl. rewrite Hmc, Hqs.
    reflexivity.
  - intros Hparams ->. unfold ModelNameKeyBit_get_data.
    destruct (Hno _ Hparams) as [mc [-> Hmc]]. simpl. now rewrite Hmc.
Qed.

Lemma ModelNameKeyBit_resolution_order_witness :
  ModelNameKeyBit_get_data Examples.any_value
    (PDict [(VStr "class", VClass "app.models" "Gadget")])
    (Some Examples.widget_view) None None [] []
  = Ok (FVal (VStr "app.models.Gadget"))
  /\ ModelNameKeyBit_get_data Examples.any_value PNone
       (Some Examples.widget_view) None None [] []
     = Ok (FVal (VStr "app.models.Widget"))
  /\ ModelNameKeyBit_get_data Examples.any_value PNone None None None [] []
     = Ok (FVal Examples.any_value).
Proof.
  split; [|split].
  - exact (proj1 (ModelNameKeyBit_resolution_order Examples.any_value
                    (PDict [(VStr "class", VClass "app.models" "Gadget")])
                    (Some Examples.widget_view) None None [] [])
             _ "app.models" "Gadget" eq_refl eq_refl).
  - exact (proj1 (proj2 (ModelNameKeyBit_resolution_order Examples.any_value
                           PNone (Some Examples.widget_view) None None [] []))
             Examples.widget_view Examples.widgets
             (or_introl eq_refl) eq_refl eq_refl).
  - exact (proj2 (proj2 (ModelNameKeyBit_resolution_order Examples.any_value
                           PNone None None None [] []))
             (or_introl eq_refl) eq_refl).
Defined.

(** ** Queryset-derived bits *)

Lemma get_data_derived_queryset
  (any_value language : pyval) (lower header_name : string -> string)
  (to_value_list : string -> result pyval) (bit : key_bit)
  (params : params_t) (view_instance : option View)
  (view_method : option Method) (request : option Request)
  (args : list pyval) (kwargs : dict) (queryset : QuerySet) :
  sql_text_family bit = true \/ model_content_family bit = true ->
  derived_queryset bit view_instance = Ok queryset ->
  get_data any_value language lower header_name to_value_list bit params
    view_instance view_method request args kwargs
  = if sql_text_family bit
    then SqlQueryKeyBitBase_get_queryset_query_string queryset
    else ModelInstanceKeyBitBase_get_queryset_query_values to_value_list
           queryset.
Proof.
  intros Hfam Hqs.
  destruct bit; simpl in Hfam; try (destruct Hfam; discriminate);
    simpl in *;
    unfold ListSqlQueryKeyBit_get_data, ListModelKeyBit_get_data,
      RetrieveSqlQueryKeyBit_get_data, RetrieveModelKeyBit_get_data.
  - now rewrite Hqs.
  - destruct (view_lookup_value view_instance) as [lv|]; [|discriminate].
    simpl in *. now rewrite Hqs.
  - destruct (view_lookup_value view_instance) as [lv|]; [|discriminate].
    simpl in *. now rewrite Hqs.
  - now rewrite Hqs.
Qed.

(** C3: a queryset-derived bit, of the SQL-text family or of the
    model-content family, returns null and not the empty text when the
    queryset it serialises is empty by construction (an [EmptyQuerySet], or
    one whose compiled query raises [EmptyResultSet] when rendered); a bit of
    the model-content family also returns null when the row count of that
    queryset is zero. *)
Theorem queryset_bits_empty_is_null
  (any_value language : pyval) (lower header_name : string -> string)
  (to_value_list : string -> result pyval) (bit : key_bit)
  (params : params_t) (view_instance : option View)
  (view_method : option Method) (request : option Request)
  (args : list pyval) (kwargs : dict) (queryset : QuerySet) :
  sql_text_family bit = true \/ model_content_family bit = true ->
  derived_queryset bit view_instance = Ok queryset ->
  empty_by_construction bit queryset \/
  (model_content_family bit = true /\ count queryset = Ok 0) ->
  get_data any_value language lower header_name to_value_list bit params
    view_instance view_method request args kwargs = Ok (FVal VNone)
  /\ get_data any_value language lower header_name to_value_list bit params
       view_instance view_method request args kwargs <> Ok (FVal (VStr "")).
Proof.
  intros Hfam Hqs Hempty.
  rewrite (get_data_derived_queryset _ _ _ _ _ _ _ _ _ _ _ _ _ Hfam Hqs).
  assert ((if sql_text_family bit
           then SqlQueryKeyBitBase_get_queryset_query_string queryset
           else ModelInstanceKeyBitBase_get_queryset_query_values
                  to_value_list queryset) = Ok (FVal VNone)) as ->;
    [|split; [reflexivity | discriminate]].
  unfold SqlQueryKeyBitBase_get_queryset_query_string,
    ModelInstanceKeyBitBase_get_queryset_query_values.
  destruct Hempty as [[Hstatic|[[Hsql Hraise]|[Hmodel [[n Hcount] Hraise]]]]
                     |[Hmodel Hcount]].
  - rewrite Hstatic. now destruct (sql_text_family bit).
  - rewrite Hsql, Hraise. now destruct (is_EmptyQuerySet queryset).
  - assert (sql_text_family bit = false) as ->
        by (destruct bit; simpl in *; congruence).
    rewrite Hcount, Hraise. destruct (is_EmptyQuerySet queryset); simpl;
      [reflexivity|]. now destruct (n =? 0).
  - assert (sql_text_family bit = false) as ->
        by (destruct bit; simpl in *; congruence).
    rewrite Hcount. now destruct (is_EmptyQuerySet queryset).
Qed.

Lemma queryset_bits_empty_is_null_witness :
  get_data Examples.any_value (VStr "en") Examples.lower Examples.prepare_header_name
    Examples.to_value_list ListSqlQuery PNone
    (Some (Examples.view_over Examples.no_widgets)) None None [] []
  = Ok (FVal VNone)
  /\ get_data Examples.any_value (VStr "en") Examples.lower Examples.prepare_header_name
       Examples.to_value_list ListModel PNone
       (Some (Examples.view_over Examples.unsatisfiable)) None None [] []
     = Ok (FVal VNone)
  /\ get_data Examples.any_value (VStr "en") Examples.lower Examples.prepare_header_name
       Examples.to_value_list RetrieveModel PNone
       (Some (Examples.view_over Examples.lookup_widgets)) None None [] []
     = Ok (FVal VNone).
Proof.
  split; [|split].
  - refine (proj1 (queryset_bits_empty_is_null Examples.any_value (VStr "en")
                     Examples.lower Examples.prepare_header_name Examples.to_value_list
                     ListSqlQuery PNone
                     (Some (Examples.view_over Examples.no_widgets))
                     None None [] [] Examples.no_widgets _ _ _)).
    + left. reflexivity.
    + reflexivity.
    + left. left. reflexivity.
  - refine (proj1 (queryset_bits_empty_is_null Examples.any_value (VStr "en")
                     Examples.lower Examples.prepare_header_name Examples.to_value_list
                     ListModel PNone
                     (Some (Examples.view_over Examples.unsatisfiable))
                     None None [] [] Examples.unsatisfiable _ _ _)).
    + right. reflexivity.
    + reflexivity.
    + left. right. right. split; [reflexivity|].
      split; [exists 1; reflexivity | reflexivity].
  - refine (proj1 (queryset_bits_empty_is_null Examples.any_value (VStr "en")
                     Examples.lower Examples.prepare_header_name Examples.to_value_list
                     RetrieveModel PNone
                     (Some (Examples.view_over Examples.lookup_widgets))
                     None None [] [] Examples.zero_rows _ _ _)).
    + right. reflexivity.
    + reflexivity.
    + right. split; reflexivity.
Defined.

(** C4, counterexample: a lookup filter that fails with [TypeError] makes
    both Retrieve bits raise [TypeError]; only [ValueError] is caught. *)
Lemma malformed_lookup_never_propagates_fails :
  ~ malformed_lookup_never_propagates.
Proof.
  intros Hclaim.
  specialize (Hclaim Examples.any_value (VStr "en") Examples.lower
                Examples.prepare_header_name Examples.to_value_list
                RetrieveSqlQuery PNone None None [] []
                (Examples.view_over Examples.strict_widgets) (VStr "7")
                Examples.strict_widgets Examples.strict_widgets TypeError
                (or_introl eq_refl) eq_refl eq_refl eq_refl eq_refl
                (or_intror eq_refl)).
  discriminate Hclaim.
Qed.

(** C4, amended: a Retrieve bit ([RetrieveSqlQueryKeyBit],
    [RetrieveModelKeyBit]) whose filter of the view's queryset by the lookup
    field fails on the lookup value with [ValueError] returns null; the
    exception does not reach the caller. *)
Theorem retrieve_bits_malformed_lookup_is_null
  (any_value language : pyval) (lower header_name : string -> string)
  (to_value_list : string -> result pyval) (bit : key_bit)
  (params : params_t) (view_instance : option View)
  (view_method : option Method) (request : option Request)
  (args : list pyval) (kwargs : dict)
  (v : View) (lookup_value : pyval) (base filtered : QuerySet) :
  bit = RetrieveSqlQuery \/ bit = RetrieveModel ->
  view_instance = Some v ->
  dict_lookup (view_kwargs v) (VStr (lookup_field v)) = Some lookup_value ->
  get_queryset v = Ok base ->
  filter_queryset v base = Ok filtered ->
  filter filtered (lookup_field v) lookup_value = Raise ValueError ->
  get_data any_value language lower header_name to_value_list bit params
    view_instance view_method request args kwargs = Ok (FVal VNone).
Proof.
  intros Hbit -> Hkw Hbase Hfiltered Hfilter.
  assert (view_lookup_value (Some v) = Ok lookup_value) as Hlv.
  { unfold view_lookup_value, dict_getitem. simpl. now rewrite Hkw. }
  assert (view_lookup_queryset (Some v) lookup_value = Raise ValueError) as Hq.
  { unfold view_lookup_queryset, view_filtered_queryset. simpl.
    rewrite Hbase. simpl. rewrite Hfiltered. simpl. exact Hfilter. }
  destruct Hbit as [-> | ->]; simpl;
    unfold RetrieveSqlQueryKeyBit_get_data, RetrieveModelKeyBit_get_data;
    rewrite Hlv; simpl; now rewrite Hq.
Qed.

Lemma retrieve_bits_malformed_lookup_is_null_witness :
  get_data Examples.any_value (VStr "en") Examples.lower Examples.prepare_header_name
    Examples.to_value_list RetrieveSqlQuery PNone
    (Some Examples.widget_view) None None [] [] = Ok (FVal VNone)
  /\ get_data Examples.any_value (VStr "en") Examples.lower Examples.prepare_header_name
       Examples.to_value_list RetrieveModel PNone
       (Some Examples.widget_view) None None [] [] = Ok (FVal VNone).
Proof.
  split.
  - refine (retrieve_bits_malformed_lookup_is_null Examples.any_value
              (VStr "en") Examples.lower Examples.prepare_header_name Examples.to_value_list
              RetrieveSqlQuery PNone (Some Examples.widget_view) None None
              [] [] Examples.widget_view (VStr "abc") Examples.widgets
              Examples.widgets _ _ _ _ _ _);
      try reflexivity.
    left. reflexivity.
  - refine (retrieve_bits_malformed_lookup_is_null Examples.any_value
              (VStr "en") Examples.lower Examples.prepare_header_name Examples.to_value_list
              RetrieveModel PNone (Some Examples.widget_view) None None
              [] [] Examples.widget_view (VStr "abc") Examples.widgets
              Examples.widgets _ _ _ _ _ _);
      try reflexivity.
    right. reflexivity.
Defined.

(** ** Dict-sourced bits *)

Lemma writes_intro (self : DictBit) (source_dict : dict) (keys : list pyval)
  (key rkey akey : pyval) :
  In key keys ->
  prepare_key_for_value_retrieving self key = Ok rkey ->
  prepare_key_for_value_assignment self key = Ok akey ->
  dict_get source_dict rkey <> VNone ->
  In (akey, VStr (force_text (dict_get source_dict rkey)))
     (writes self source_dict keys).
Proof.
  intros Hin Hr Ha Hv. induction keys as [|k rest IH]; [destruct Hin|].
  simpl. destruct Hin as [->|Hin].
  - rewrite Hr, Ha. apply is_none_false in Hv. rewrite Hv. now left.
  - specialize (IH Hin).
    destruct (prepare_key_for_value_retrieving self k) as [rk|]; [|exact IH].
    destruct (prepare_key_for_value_assignment self k) as [ak|]; [|exact IH].
    destruct (is_none (dict_get source_dict rk)); [exact IH | now right].
Qed.

Lemma last_occurrence (ws : list (pyval * pyval)) (a : pyval) :
  In a (map fst ws) ->
  exists pre v post, ws = pre ++ (a, v) :: post /\ ~ In a (map fst post).
Proof.
  induction ws as [|[b w] ws IH]; simpl; [intros []|].
  intros Hin.
  destruct (mem a (map fst ws)) eqn:Hmem.
  - apply mem_In in Hmem. destruct (IH Hmem) as [pre [v [post [-> Hpost]]]].
    exists ((b, w) :: pre), v, post. now split.
  - assert (~ In a (map fst ws)) as Hnot.
    { intros H. apply mem_In in H. congruence. }
    destruct Hin as [->|Hin]; [|contradiction].
    exists [], w, ws. now split.
Qed.

Lemma dict_set_fresh (d : dict) (k v : pyval) :
  ~ In k (dict_keys d) -> dict_set d k v = d ++ [(k, v)].
Proof.
  unfold dict_keys. induction d as [|[k' v'] d IH]; simpl; intros Hnot.
  - reflexivity.
  - destruct (pyval_eqb_spec k' k) as [->|Hne].
    + exfalso. apply Hnot. now left.
    + rewrite IH; [reflexivity|]. intros H. apply Hnot. now right.
Qed.

Lemma assign_all_fresh (ws : list (pyval * pyval)) (data : dict) :
  NoDup (dict_keys data ++ map fst ws) -> assign_all ws data = data ++ ws.
Proof.
  revert data. induction ws as [|[a v] ws IH]; intros data Hnd.
  - simpl. now rewrite app_nil_r.
  - unfold assign_all in *. simpl in *.
    apply NoDup_remove in Hnd. destruct Hnd as [Hnd Hnot].
    rewrite dict_set_fresh.
    + rewrite IH.
      * now rewrite <- app_assoc.
      * unfold dict_keys in *. rewrite map_app. simpl.
        rewrite <- app_assoc. simpl.
        apply NoDup_Add with (a := a) (l := map fst data ++ map fst ws).
        -- apply Add_app.
        -- split; assumption.
    + intros H. apply Hnot. apply in_or_app. now left.
Qed.

Lemma writes_identity_wildcard (self : DictBit) (d1 d2 : dict) :
  (forall key, prepare_key_for_value_retrieving self key = Ok key) ->
  (forall key, prepare_key_for_value_assignment self key = Ok key) ->
  dict_wf (d1 ++ d2) ->
  (forall k v, In (k, v) d2 -> v <> VNone) ->
  writes self (d1 ++ d2) (dict_keys d2) = map text_entry d2.
Proof.
  intros Hr Ha. revert d1. induction d2 as [|[k v] d2 IH]; intros d1 Hwf Hnn.
  - reflexivity.
  - simpl. rewrite Hr, Ha. unfold dict_get.
    rewrite (dict_lookup_wf_head _ _ _ _ Hwf).
    assert (is_none v = false) as ->.
    { apply is_none_false. apply (Hnn k). now left. }
    unfold text_entry at 1. simpl. f_equal.
    replace (d1 ++ (k, v) :: d2) with ((d1 ++ [(k, v)]) ++ d2)
      by (now rewrite <- app_assoc).
    fold (dict_get ((d1 ++ [(k, v)]) ++ d2)).
    apply IH.
    + now rewrite <- app_assoc.
    + intros k' v' H. apply (Hnn k'). now right.
Qed.

Lemma dict_bit_get_data_writes
  (any_value language : pyval) (lower header_name : string -> string)
  (to_value_list : string -> result pyval) (bit : key_bit) (self : DictBit)
  (params : params_t) (view_instance : option View)
  (view_method : option Method) (request : option Request)
  (args : list pyval) (kwargs : dict) (source_dict : dict) :
  dict_bit_of lower header_name bit = Some self ->
  source_of bit request kwargs = Ok source_dict ->
  transforms_defined self
    (selected_keys (effective_params bit params view_instance) source_dict)
  = true ->
  get_data any_value language lower header_name to_value_list bit params
    view_instance view_method request args kwargs
  = Ok (FDict (assign_all
                 (writes self source_dict
                    (selected_keys
                       (effective_params bit params view_instance)
                       source_dict))
                 [])).
Proof.
  intros Hself Hsrc Hdef.
  assert (forall ps,
            get_source_dict self ps view_instance view_method request args
              kwargs = source_of bit request kwargs) as Hsource.
  { intros ps. destruct bit; simpl in Hself; inversion Hself; reflexivity. }
  assert (forall ps,
            transforms_defined self (selected_keys ps source_dict) = true ->
            KeyBitDictBase_get_data self ps view_instance view_method request
              args kwargs
            = Ok (FDict (assign_all
                           (writes self source_dict
                              (selected_keys ps source_dict)) []))) as Hbase.
  { intros ps Hps. unfold KeyBitDictBase_get_data.
    destruct ps; [reflexivity| | |];
      rewrite Hsource, Hsrc; cbn [bind];
      rewrite (KeyBitDictBase_loop_writes _ _ _ _ Hps); reflexivity. }
  destruct bit; simpl in Hself; inversion Hself; subst self;
    apply Hbase; exact Hdef.
Qed.

Lemma dict_bit_coherent (lower header_name : string -> string) (bit : key_bit)
  (self : DictBit) (k1 k2 akey : pyval) :
  dict_bit_of lower header_name bit = Some self ->
  prepare_key_for_value_assignment self k1 = Ok akey ->
  prepare_key_for_value_assignment self k2 = Ok akey ->
  prepare_key_for_value_retrieving self k1
  = prepare_key_for_value_retrieving self k2.
Proof.
  intros Hself H1 H2.
  destruct bit; simpl in Hself; inversion Hself; subst self; simpl in *;
    try (unfold KeyBitDictBase_prepare_key_for_value_assignment in *;
         congruence).
  unfold HeadersKeyBit_prepare_key_for_value_assignment,
    HeadersKeyBit_prepare_key_for_value_retrieving in *.
  destruct k1, k2; simpl in *; try discriminate. congruence.
Qed.

(** C6: a dict-sourced bit whose source mapping is available and whose key
    transforms are defined on the selected keys returns a mapping in which
    the assignment key of a selected key is present exactly when the value
    looked up for that key is not null; the value stored under it is the
    text of the looked-up value, and nothing else is in the mapping. *)
Theorem dict_bits_include_iff_non_null
  (any_value language : pyval) (lower header_name : string -> string)
  (to_value_list : string -> result pyval) (bit : key_bit) (self : DictBit)
  (params : params_t) (view_instance : option View)
  (view_method : option Method) (request : option Request)
  (args : list pyval) (kwargs : dict) (source_dict : dict) :
  dict_bit_of lower header_name bit = Some self ->
  source_of bit request kwargs = Ok source_dict ->
  transforms_defined self
    (selected_keys (effective_params bit params view_instance) source_dict)
  = true ->
  exists data,
    get_data any_value language lower header_name to_value_list bit params
      view_instance view_method request args kwargs = Ok (FDict data)
    /\ (forall key rkey akey,
          In key (selected_keys (effective_params bit params view_instance)
                    source_dict) ->
          prepare_key_for_value_retrieving self key = Ok rkey ->
          prepare_key_for_value_assignment self key = Ok akey ->
          (In akey (dict_keys data) <-> dict_get source_dict rkey <> VNone)
          /\ (dict_get source_dict rkey <> VNone ->
              dict_lookup data akey
              = Some (VStr (force_text (dict_get source_dict rkey)))))
    /\ (forall akey v,
          dict_lookup data akey = Some v ->
          exists key rkey,
            In key (selected_keys (effective_params bit params view_instance)
                      source_dict)
            /\ prepare_key_for_value_retrieving self key = Ok rkey
            /\ prepare_key_for_value_assignment self key = Ok akey
            /\ dict_get source_dict rkey <> VNone
            /\ v = VStr (force_text (dict_get source_dict rkey))).
Proof.
  intros Hself Hsrc Hdef.
  set (keys := selected_keys (effective_params bit params view_instance)
                 source_dict) in *.
  exists (assign_all (writes self source_dict keys) []).
  split; [exact (dict_bit_get_data_writes _ _ _ _ _ _ _ _ _ _ _ _ _ _
                   Hself Hsrc Hdef)|].
  assert (forall akey v,
            dict_lookup (assign_all (writes self source_dict keys) []) akey
            = Some v ->
            exists key rkey,
              In key keys
              /\ prepare_key_for_value_retrieving self key = Ok rkey
              /\ prepare_key_for_value_assignment self key = Ok akey
              /\ dict_get source_dict rkey <> VNone
              /\ v = VStr (force_text (dict_get source_dict rkey))) as Horigin.
  { intros akey v Hlook.
    apply assign_all_lookup_origin in Hlook.
    destruct Hlook as [Hin | Hnil]; [|discriminate].
    exact (writes_In _ _ _ _ _ Hin). }
  split; [|exact Horigin].
  intros key rkey akey Hin Hr Ha.
  assert (forall v,
            dict_lookup (assign_all (writes self source_dict keys) []) akey
            = Some v ->
            dict_get source_dict rkey <> VNone
            /\ v = VStr (force_text (dict_get source_dict rkey))) as Hsame.
  { intros v Hlook.
    destruct (Horigin _ _ Hlook) as [k' [rk' [_ [Hr' [Ha' [Hnn Hv]]]]]].
    pose proof (dict_bit_coherent _ _ _ _ _ _ _ Hself Ha Ha') as Hco.
    rewrite Hr, Hr' in Hco. inversion Hco; subst rk'. now split. }
  assert (dict_get source_dict rkey <> VNone ->
          dict_lookup (assign_all (writes self source_dict keys) []) akey
          = Some (VStr (force_text (dict_get source_dict rkey)))) as Hfwd.
  { intros Hnn.
    pose proof (writes_intro _ _ _ _ _ _ Hin Hr Ha Hnn) as Hw.
    assert (In akey (map fst (writes self source_dict keys))) as Hk.
    { apply in_map_iff. eexists. split; [|exact Hw]. reflexivity. }
    destruct (last_occurrence _ _ Hk) as [pre [v [post [Heq Hpost]]]].
    rewrite Heq.
    rewrite (assign_all_last_write pre post [] akey v Hpost).
    rewrite Heq in Hsame.
    destruct (Hsame v (assign_all_last_write pre post [] akey v Hpost))
      as [_ ->].
    reflexivity. }
  split; [|exact Hfwd].
  split.
  - intros Hpresent. apply dict_lookup_In in Hpresent.
    destruct (dict_lookup _ akey) as [v|] eqn:Hlook; [|congruence].
    exact (proj1 (Hsame v eq_refl)).
  - intros Hnn. apply dict_lookup_In. rewrite (Hfwd Hnn). discriminate.
Qed.

Lemma dict_bits_include_iff_non_null_witness :
  exists data,
    get_data Examples.any_value (VStr "en") Examples.lower Examples.prepare_header_name
      Examples.to_value_list Headers
      (PList [VStr "Accept-Language"; VStr "X-Geobase-Id"])
      None None (Some Examples.paged_request) [] [] = Ok (FDict data)
    /\ dict_lookup data (VStr "accept-language") = Some (VStr "ru")
    /\ ~ In (VStr "x-geobase-id") (dict_keys data).
Proof.
  destruct (dict_bits_include_iff_non_null Examples.any_value (VStr "en")
              Examples.lower Examples.prepare_header_name Examples.to_value_list Headers
              (HeadersKeyBit Examples.lower Examples.prepare_header_name)
              (PList [VStr "Accept-Language"; VStr "X-Geobase-Id"])
              None None (Some Examples.paged_request) [] []
              (META Examples.paged_request) eq_refl eq_refl eq_refl)
    as [data [Hdata [Hkeys _]]].
  exists data. split; [exact Hdata|]. split.
  - apply (proj2 (Hkeys (VStr "Accept-Language") (VStr "HTTP_ACCEPT_LANGUAGE")
                    (VStr "accept-language") (or_introl eq_refl)
                    eq_refl eq_refl)).
    discriminate.
  - intros Hin.
    apply (proj1 (proj1 (Hkeys (VStr "X-Geobase-Id") (VStr "HTTP_X_GEOBASE_ID")
                           (VStr "x-geobase-id")
                           (or_intror (or_introl eq_refl))
                           eq_refl eq_refl)) Hin).
    reflexivity.
Defined.

(** C5, counterexample: the Pagination bit handed the wildcard over a query
    string of two non-null parameters returns the empty mapping when the
    view has no paginator. *)
Lemma wildcard_keeps_every_entry_fails : ~ wildcard_keeps_every_entry.
Proof.
  intros Hclaim.
  destruct (Hclaim Examples.any_value (VStr "en") Examples.lower Examples.prepare_header_name
              Examples.to_value_list Pagination PaginationKeyBit
              (Some Examples.plain_view) None (Some Examples.paged_request)
              [] [] (GET Examples.paged_request) eq_refl eq_refl)
    as [data [Hdata Hlen]].
  - repeat constructor; simpl; intuition discriminate.
  - intros k v [H|[H|[]]]; inversion H; discriminate.
  - vm_compute in Hdata. inversion Hdata; subst data. discriminate Hlen.
Qed.

(** The Headers bit handed the wildcard looks every metadata key up under
    its header name, so with the usual [prepare_header_name] an entry is not
    found again. *)
Example HeadersKeyBit_wildcard_finds_nothing :
  get_data Examples.any_value (VStr "en") Examples.lower Examples.prepare_header_name
    Examples.to_value_list Headers PAll
    None None (Some Examples.paged_request) [] [] = Ok (FDict [])
  /\ get_data Examples.any_value (VStr "en") Examples.lower Examples.prepare_header_name
       Examples.to_value_list Headers (PList [VStr "Accept-Language"])
       None None (Some Examples.paged_request) [] []
     = Ok (FDict [(VStr "accept-language", VStr "ru")]).
Proof. split; reflexivity. Qed.

(** C5, amended: for the RequestMeta, QueryParams and Kwargs bits the
    wildcard over a well-formed source mapping of N entries without null
    values returns N entries, the source's keys in the source's order, each
    with the text of its value; for every dict-sourced bit the keys of the
    output are the assignment keys of the selected keys with a non-null
    looked-up value, in selector order of their first occurrence, and the
    value under an assignment key is the one written by the last selected
    key that maps to it. *)
Theorem dict_bits_order_and_last_write
  (any_value language : pyval) (lower header_name : string -> string)
  (to_value_list : string -> result pyval) (bit : key_bit) (self : DictBit)
  (params : params_t) (view_instance : option View)
  (view_method : option Method) (request : option Request)
  (args : list pyval) (kwargs : dict) (source_dict : dict) :
  dict_bit_of lower header_name bit = Some self ->
  source_of bit request kwargs = Ok source_dict ->
  (plain_dict_bit bit = true ->
   dict_wf source_dict ->
   (forall k v, In (k, v) source_dict -> v <> VNone) ->
   get_data any_value language lower header_name to_value_list bit PAll
     view_instance view_method request args kwargs
   = Ok (FDict (map text_entry source_dict))
   /\ List.length (map text_entry source_dict) = List.length source_dict
   /\ dict_keys (map text_entry source_dict) = dict_keys source_dict)
  /\ (transforms_defined self
        (selected_keys (effective_params bit params view_instance)
           source_dict) = true ->
      exists data,
        get_data any_value language lower header_name to_value_list bit params
          view_instance view_method request args kwargs = Ok (FDict data)
        /\ dict_keys data
           = first_occurrences
               (map fst
                  (writes self source_dict
                     (selected_keys
                        (effective_params bit params view_instance)
                        source_dict)))
        /\ (forall pre key post rkey akey,
              selected_keys (effective_params bit params view_instance)
                source_dict = pre ++ key :: post ->
              prepare_key_for_value_retrieving self key = Ok rkey ->
              prepare_key_for_value_assignment self key = Ok akey ->
              dict_get source_dict rkey <> VNone ->
              (forall later rlater,
                 In later post ->
                 prepare_key_for_value_retrieving self later = Ok rlater ->
                 dict_get source_dict rlater <> VNone ->
                 prepare_key_for_value_assignment self later <> Ok akey) ->
              dict_lookup data akey
              = Some (VStr (force_text (dict_get source_dict rkey))))).
Proof.
  intros Hself Hsrc. split.
  - intros Hplain Hwf Hnn.
    assert ((forall key, prepare_key_for_value_retrieving self key = Ok key)
            /\ (forall key, prepare_key_for_value_assignment self key = Ok key))
      as [Hr Ha].
    { destruct bit; try discriminate Hplain; simpl in Hself;
        inversion Hself; split; reflexivity. }
    assert (effective_params bit PAll view_instance = PAll) as Heff
        by (destruct bit; try discriminate Hplain; reflexivity).
    assert (transforms_defined self
              (selected_keys (effective_params bit PAll view_instance)
                 source_dict) = true) as Hdef.
    { unfold transforms_defined. apply forallb_forall. intros k _.
      now rewrite Hr, Ha. }
    rewrite (dict_bit_get_data_writes _ _ _ _ _ _ _ _ _ _ _ _ _ _
               Hself Hsrc Hdef).
    rewrite Heff. simpl selected_keys.
    pose proof (writes_identity_wildcard self [] source_dict Hr Ha Hwf Hnn)
      as Hw.
    cbn [app] in Hw. rewrite Hw.
    rewrite assign_all_fresh.
    + split; [reflexivity|]. split; [apply length_map|].
      unfold dict_keys. rewrite map_map. reflexivity.
    + simpl. rewrite map_map. exact Hwf.
  - intros Hdef.
    set (keys := selected_keys (effective_params bit params view_instance)
                   source_dict) in *.
    exists (assign_all (writes self source_dict keys) []).
    split; [exact (dict_bit_get_data_writes _ _ _ _ _ _ _ _ _ _ _ _ _ _
                     Hself Hsrc Hdef)|].
    split; [apply assign_all_keys|].
    intros pre key post rkey akey Hkeys Hr Ha Hnn Hlater.
    rewrite Hkeys, writes_app. simpl. rewrite Hr, Ha.
    apply is_none_false in Hnn. rewrite Hnn.
    apply assign_all_last_write.
    intros Hin. apply in_map_iff in Hin. destruct Hin as [[a v] [Hfst Hw]].
    simpl in Hfst. subst a.
    destruct (writes_In _ _ _ _ _ Hw) as [k' [rk' [Hk' [Hr' [Ha' [Hnn' _]]]]]].
    exact (Hlater k' rk' Hk' Hr' Hnn' Ha').
Qed.

Lemma dict_bits_order_and_last_write_witness :
  get_data Examples.any_value (VStr "en") Examples.lower Examples.prepare_header_name
    Examples.to_value_list QueryParams PAll
    None None (Some Examples.paged_request) [] []
  = Ok (FDict [(VStr "page_size", VStr "100"); (VStr "page", VStr "1")])
  /\ exists data,
       get_data Examples.any_value (VStr "en") Examples.lower Examples.prepare_header_name
         Examples.to_value_list QueryParams
         (PList [VStr "page"; VStr "missing"; VStr "page_size"; VStr "page"])
         None None (Some Examples.paged_request) [] [] = Ok (FDict data)
       /\ dict_keys data = [VStr "page"; VStr "page_size"]
       /\ dict_lookup data (VStr "page") = Some (VStr "1").
Proof.
  pose proof (dict_bits_order_and_last_write Examples.any_value (VStr "en")
                Examples.lower Examples.prepare_header_name Examples.to_value_list
                QueryParams QueryParamsKeyBit
                (PList [VStr "page"; VStr "missing"; VStr "page_size";
                        VStr "page"])
                None None (Some Examples.paged_request) [] []
                (GET Examples.paged_request) eq_refl eq_refl)
    as [Hwild Hsel].
  split.
  - refine (proj1 (Hwild eq_refl _ _)).
    + repeat constructor; simpl; intuition discriminate.
    + intros k v [H|[H|[]]]; inversion H; discriminate.
  - destruct (Hsel eq_refl) as [data [Hdata [Hkeys Hlast]]].
    exists data. split; [exact Hdata|]. split; [exact Hkeys|].
    refine (Hlast [VStr "page"; VStr "missing"; VStr "page_size"]
              (VStr "page") [] (VStr "page") (VStr "page")
              eq_refl eq_refl eq_refl _ _).
    + discriminate.
    + intros later rlater [].
Defined.

(** ** Absent context *)

(** C1, counterexample: with view, method and request all null the Language
    bit returns the text of the active language, not the sentinel. *)
Lemma degrades_to_sentinel_everywhere_fails : ~ degrades_to_sentinel_everywhere.
Proof.
  intros Hclaim.
  specialize (Hclaim Examples.any_value (VStr "en")
                Examples.lower Examples.prepare_header_name Examples.to_value_list
                Language PNone None None None [] [] (or_introl eq_refl)).
  discriminate Hclaim.
Qed.

(** What the other bits do on a null context: the view id does not depend on
    the request; a dict-sourced bit with a selector and the queryset-derived
    bits read the null request or view; a dict-sourced bit without selector
    returns the empty mapping. *)
Example null_context_elsewhere :
  get_data Examples.any_value (VStr "en") Examples.lower Examples.prepare_header_name
    Examples.to_value_list UniqueViewId PNone
    (Some Examples.widget_view) None None [] []
  = Ok (FVal (VStr "app.views.WidgetView"))
  /\ get_data Examples.any_value (VStr "en") Examples.lower Examples.prepare_header_name
       Examples.to_value_list Headers (PList [VStr "Accept-Language"])
       None None None [] [] = Raise AttributeError
  /\ get_data Examples.any_value (VStr "en") Examples.lower Examples.prepare_header_name
       Examples.to_value_list Pagination PNone None None None [] []
     = Raise AttributeError
  /\ get_data Examples.any_value (VStr "en") Examples.lower Examples.prepare_header_name
       Examples.to_value_list ListSqlQuery PNone None None None [] []
     = Raise AttributeError
  /\ get_data Examples.any_value (VStr "en") Examples.lower Examples.prepare_header_name
       Examples.to_value_list RequestMeta PNone None None None [] []
     = Ok (FDict []).
Proof. repeat split. Qed.

(** C1, amended: every bit that has a sentinel fallback returns the sentinel,
    without raising, when the part of the context it reads is null:
    UniqueViewId on a null view, UniqueMethodId on a null view or method,
    Format and User on a null request, ModelName on a null view when
    [params] carries no class override.  The Language bit has no fallback:
    it returns the text of the active language whatever is null. *)
Theorem sentinel_when_context_absent
  (any_value language : pyval) (lower header_name : string -> string)
  (to_value_list : string -> result pyval) (bit : key_bit)
  (params : params_t) (view_instance : option View)
  (view_method : option Method) (request : option Request)
  (args : list pyval) (kwargs : dict) :
  (context_absent bit view_instance view_method request ->
   (bit = ModelName -> no_override params) ->
   get_data any_value language lower header_name to_value_list bit params
     view_instance view_method request args kwargs = Ok (FVal any_value))
  /\ get_data any_value language lower header_name to_value_list Language params
       view_instance view_method request args kwargs
     = Ok (FVal (VStr (force_text language))).
Proof.
  split; [|reflexivity].
  intros Habsent Hparams. destruct bit; simpl in Habsent; try contradiction.
  - now subst view_instance.
  - simpl. unfold UniqueMethodIdKeyBit_get_data.
    destruct Habsent as [-> | ->]; [reflexivity|].
    now destruct view_instance.
  - now subst request.
  - now subst request.
  - subst view_instance. simpl. unfold ModelNameKeyBit_get_data.
    destruct (no_override_model_class _ (Hparams eq_refl)) as [mc [-> Hmc]].
    simpl. now rewrite Hmc.
Qed.

Lemma sentinel_when_context_absent_witness :
  get_data Examples.any_value (VStr "en") Examples.lower Examples.prepare_header_name
    Examples.to_value_list UniqueMethodId PNone
    (Some Examples.widget_view) None (Some Examples.paged_request) [] []
  = Ok (FVal Examples.any_value)
  /\ get_data Examples.any_value (VStr "en") Examples.lower Examples.prepare_header_name
       Examples.to_value_list ModelName PNone
       None (Some Examples.list_method) (Some Examples.paged_request) [] []
     = Ok (FVal Examples.any_value).
Proof.
  split.
  - refine (proj1 (sentinel_when_context_absent Examples.any_value
                     (VStr "en") Examples.lower Examples.prepare_header_name
                     Examples.to_value_list UniqueMethodId PNone
                     (Some Examples.widget_view) None
                     (Some Examples.paged_request) [] []) _ _).
    + right. reflexivity.
    + discriminate.
  - refine (proj1 (sentinel_when_context_absent Examples.any_value
                     (VStr "en") Examples.lower Examples.prepare_header_name
                     Examples.to_value_list ModelName PNone None
                     (Some Examples.list_method)
                     (Some Examples.paged_request) [] []) _ _).
    + reflexivity.
    + intros _. left. reflexivity.
Defined.

(** ** Further properties of the dict-sourced bits *)

Lemma HeadersKeyBit_loop_lowered (lower header_name : string -> string)
  (source_dict : dict) (names names' : list string) (data : dict) :
  map lower names = map lower names' ->
  KeyBitDictBase_loop (HeadersKeyBit lower header_name) source_dict
    (map VStr names) data
  = KeyBitDictBase_loop (HeadersKeyBit lower header_name) source_dict
      (map VStr names') data.
Proof.
  revert names' data.
  induction names as [|s names IH]; intros [|s' names'] data Heq;
    try discriminate Heq; [reflexivity|].
  cbn [map] in Heq. inversion Heq as [[Hs Hrest]].
  cbn [map KeyBitDictBase_loop prepare_key_for_value_retrieving
         prepare_key_for_value_assignment HeadersKeyBit].
  unfold HeadersKeyBit_prepare_key_for_value_retrieving,
    HeadersKeyBit_prepare_key_for_value_assignment.
  cbn [py_lower bind]. rewrite Hs.
  destruct (is_none (dict_get source_dict (VStr (header_name (lower s')))));
    now apply IH.
Qed.

(** X1: the Headers bit reads the selected names only through
    [str.lower()]: two selector lists whose names agree once lower-cased
    give the same result, or raise the same exception. *)
Theorem HeadersKeyBit_case_insensitive
  (any_value language : pyval) (lower header_name : string -> string)
  (to_value_list : string -> result pyval) (names names' : list string)
  (view_instance : option View) (view_method : option Method)
  (request : option Request) (args : list pyval) (kwargs : dict) :
  map lower names = map lower names' ->
  get_data any_value language lower header_name to_value_list Headers
    (PList (map VStr names)) view_instance view_method request args kwargs
  = get_data any_value language lower header_name to_value_list Headers
      (PList (map VStr names')) view_instance view_method request args kwargs.
Proof.
  intros Heq. cbn [get_data]. unfold KeyBitDictBase_get_data.
  cbn [get_source_dict HeadersKeyBit selected_keys].
  destruct (HeadersKeyBit_get_source_dict _ _ _ _ _ _) as [source_dict|];
    [|reflexivity].
  cbn [bind]. now rewrite (HeadersKeyBit_loop_lowered _ _ _ _ _ _ Heq).
Qed.

Lemma HeadersKeyBit_case_insensitive_witness :
  get_data Examples.any_value (VStr "en") Examples.lower
    Examples.prepare_header_name Examples.to_value_list Headers
    (PList (map VStr ["Accept-Language"; "x-geobase-id"]))
    None None (Some Examples.paged_request) [] []
  = get_data Examples.any_value (VStr "en") Examples.lower
      Examples.prepare_header_name Examples.to_value_list Headers
      (PList (map VStr ["ACCEPT-LANGUAGE"; "X-Geobase-Id"]))
      None None (Some Examples.paged_request) [] [].
Proof.
  apply (HeadersKeyBit_case_insensitive Examples.any_value (VStr "en")
           Examples.lower Examples.prepare_header_name Examples.to_value_list
           ["Accept-Language"; "x-geobase-id"]
           ["ACCEPT-LANGUAGE"; "X-Geobase-Id"]
           None None (Some Examples.paged_request) [] []).
  reflexivity.
Defined.

Lemma assign_all_keys_written (ws : list (pyval * pyval)) (k : pyval) :
  In k (dict_keys (assign_all ws [])) -> In k (map fst ws).
Proof.
  intros Hin. apply dict_lookup_In in Hin.
  destruct (dict_lookup (assign_all ws []) k) as [v|] eqn:Hlook;
    [|congruence].
  apply assign_all_lookup_origin in Hlook.
  destruct Hlook as [Hw|Hnil]; [|discriminate].
  apply in_map_iff. exists (k, v). now split.
Qed.

(** X2: every key of the mapping the Headers bit returns is the
    [str.lower()] of a selected name whose metadata entry is not null; no
    key keeps the spelling of the selector or of the metadata. *)
Theorem HeadersKeyBit_keys_lower_case
  (any_value language : pyval) (lower header_name : string -> string)
  (to_value_list : string -> result pyval) (params : params_t)
  (view_instance : option View) (view_method : option Method)
  (r : Request) (args : list pyval) (kwargs : dict) :
  transforms_defined (HeadersKeyBit lower header_name)
    (selected_keys params (META r)) = true ->
  exists data,
    get_data any_value language lower header_name to_value_list Headers
      params view_instance view_method (Some r) args kwargs = Ok (FDict data)
    /\ forall key,
         In key (dict_keys data) ->
         exists name,
           In (VStr name) (selected_keys params (META r))
           /\ key = VStr (lower name)
           /\ dict_get (META r) (VStr (header_name (lower name))) <> VNone.
Proof.
  intros Hdef.
  pose proof (dict_bit_get_data_writes any_value language lower header_name
                to_value_list Headers (HeadersKeyBit lower header_name) params
                view_instance view_method (Some r) args kwargs (META r)
                eq_refl eq_refl Hdef) as Hdata.
  eexists. split; [exact Hdata|].
  intros key Hin. apply assign_all_keys_written in Hin.
  apply in_map_iff in Hin. destruct Hin as [[a v] [Hfst Hw]].
  simpl in Hfst. subst a.
  destruct (writes_In _ _ _ _ _ Hw) as [k [rk [Hk [Hr [Ha [Hnn _]]]]]].
  cbn [prepare_key_for_value_retrieving prepare_key_for_value_assignment
         HeadersKeyBit] in Hr, Ha.
  unfold HeadersKeyBit_prepare_key_for_value_assignment,
    HeadersKeyBit_prepare_key_for_value_retrieving in Hr, Ha.
  destruct k as [|s| |]; cbn [py_lower bind] in Hr, Ha; try discriminate.
  inversion Hr; inversion Ha; subst. exists s.
  split; [exact Hk|]. split; [reflexivity | exact Hnn].
Qed.

Lemma HeadersKeyBit_keys_lower_case_witness :
  exists data,
    get_data Examples.any_value (VStr "en") Examples.lower
      Examples.prepare_header_name Examples.to_value_list Headers
      (PList [VStr "Accept-Language"])
      None None (Some Examples.paged_request) [] [] = Ok (FDict data)
    /\ forall key,
         In key (dict_keys data) ->
         exists name,
           In (VStr name) [VStr "Accept-Language"]
           /\ key = VStr (Examples.lower name)
           /\ dict_get (META Examples.paged_request)
                (VStr (Examples.prepare_header_name (Examples.lower name)))
              <> VNone.
Proof.
  apply (HeadersKeyBit_keys_lower_case Examples.any_value (VStr "en")
           Examples.lower Examples.prepare_header_name Examples.to_value_list
           (PList [VStr "Accept-Language"]) None None
           Examples.paged_request [] []).
  reflexivity.
Defined.

Lemma dict_set_length (d : dict) (k v : pyval) :
  (List.length (dict_set d k v) <= S (List.length d))%nat.
Proof.
  induction d as [|[k' v'] d IH]; simpl; [lia|].
  destruct (pyval_eqb k' k); simpl; lia.
Qed.

Lemma assign_all_length (ws : list (pyval * pyval)) (data : dict) :
  (List.length (assign_all ws data) <= List.length data + List.length ws)%nat.
Proof.
  revert data. induction ws as [|w ws IH]; intros data; simpl; [lia|].
  unfold assign_all in *. simpl. specialize (IH (dict_set data (fst w) (snd w))).
  pose proof (dict_set_length data (fst w) (snd w)). lia.
Qed.

Lemma writes_length (self : DictBit) (source_dict : dict) (keys : list pyval) :
  (List.length (writes self source_dict keys) <= List.length keys)%nat.
Proof.
  induction keys as [|key rest IH]; simpl; [lia|].
  destruct (prepare_key_for_value_retrieving self key) as [rkey|]; [|lia].
  destruct (prepare_key_for_value_assignment self key) as [akey|]; [|lia].
  destruct (is_none (dict_get source_dict rkey)); simpl; lia.
Qed.

Lemma writes_skip_null (self : DictBit) (source_dict : dict)
  (pre post : list pyval) (key rkey : pyval) :
  prepare_key_for_value_retrieving self key = Ok rkey ->
  dict_get source_dict rkey = VNone ->
  writes self source_dict (pre ++ key :: post)
  = writes self source_dict (pre ++ post).
Proof.
  intros Hr Hnull. rewrite !writes_app. f_equal. simpl. rewrite Hr, Hnull.
  now destruct (prepare_key_for_value_assignment self key).
Qed.

(** X3: the mapping a dict-sourced bit returns never has more entries than
    keys were selected, and has fewer as soon as one selected key looks up a
    null or missing value. *)
Theorem dict_bits_output_size
  (any_value language : pyval) (lower header_name : string -> string)
  (to_value_list : string -> result pyval) (bit : key_bit) (self : DictBit)
  (params : params_t) (view_instance : option View)
  (view_method : option Method) (request : option Request)
  (args : list pyval) (kwargs : dict) (source_dict : dict) :
  dict_bit_of lower header_name bit = Some self ->
  source_of bit request kwargs = Ok source_dict ->
  transforms_defined self
    (selected_keys (effective_params bit params view_instance) source_dict)
  = true ->
  exists data,
    get_data any_value language lower header_name to_value_list bit params
      view_instance view_method request args kwargs = Ok (FDict data)
    /\ (List.length data
        <= List.length (selected_keys
                          (effective_params bit params view_instance)
                          source_dict))%nat
    /\ (forall key rkey,
          In key (selected_keys (effective_params bit params view_instance)
                    source_dict) ->
          prepare_key_for_value_retrieving self key = Ok rkey ->
          dict_get source_dict rkey = VNone ->
          (List.length data
           < List.length (selected_keys
                            (effective_params bit params view_instance)
                            source_dict))%nat).
Proof.
  intros Hself Hsrc Hdef.
  set (keys := selected_keys (effective_params bit params view_instance)
                 source_dict) in *.
  exists (assign_all (writes self source_dict keys) []).
  split; [exact (dict_bit_get_data_writes _ _ _ _ _ _ _ _ _ _ _ _ _ _
                   Hself Hsrc Hdef)|].
  pose proof (assign_all_length (writes self source_dict keys) []) as Hlen.
  simpl in Hlen. split.
  - pose proof (writes_length self source_dict keys). lia.
  - intros key rkey Hin Hr Hnull.
    destruct (in_split _ _ Hin) as [pre [post Hkeys]].
    rewrite Hkeys in Hlen |- *.
    rewrite (writes_skip_null _ _ _ _ _ _ Hr Hnull) in Hlen |- *.
    pose proof (writes_length self source_dict (pre ++ post)) as Hw.
    rewrite !length_app in *. simpl. lia.
Qed.

Lemma dict_bits_output_size_witness :
  exists data,
    get_data Examples.any_value (VStr "en") Examples.lower Examples.prepare_header_name
      Examples.to_value_list RequestMeta
      (PList [VStr "HTTP_ACCEPT_LANGUAGE"; VStr "REMOTE_ADDR"])
      None None (Some Examples.paged_request) [] [] = Ok (FDict data)
    /\ (List.length data < 2)%nat.
Proof.
  destruct (dict_bits_output_size Examples.any_value (VStr "en")
              Examples.lower Examples.prepare_header_name Examples.to_value_list
              RequestMeta RequestMetaKeyBit
              (PList [VStr "HTTP_ACCEPT_LANGUAGE"; VStr "REMOTE_ADDR"])
              None None (Some Examples.paged_request) [] []
              (META Examples.paged_request) eq_refl eq_refl eq_refl)
    as [data [Hdata [_ Hless]]].
  exists data. split; [exact Hdata|].
  exact (Hless (VStr "REMOTE_ADDR") (VStr "REMOTE_ADDR")
           (or_intror (or_introl eq_refl)) eq_refl eq_refl).
Defined.


(** X5: the dict-sourced bits that read the request have no guard for a null
    request: Headers, RequestMeta and QueryParams raise [AttributeError] as
    soon as their selector is not null, and Pagination raises it whatever
    selector it is handed and whatever the view is. *)
Theorem request_sourced_bits_null_request
  (any_value language : pyval) (lower header_name : string -> string)
  (to_value_list : string -> result pyval) (bit : key_bit)
  (params : params_t) (view_instance : option View)
  (view_method : option Method) (args : list pyval) (kwargs : dict) :
  request_sourced bit = true ->
  bit = Pagination \/ params <> PNone ->
  get_data any_value language lower header_name to_value_list bit params
    view_instance view_method None args kwargs = Raise AttributeError.
Proof.
  intros Hbit Hparams.
  destruct bit; try discriminate Hbit; simpl;
    try (destruct Hparams as [Hp|Hp]; [discriminate Hp|];
         destruct params; [contradiction| | |]; reflexivity).
  reflexivity.
Qed.

Lemma request_sourced_bits_null_request_witness :
  get_data Examples.any_value (VStr "en") Examples.lower Examples.prepare_header_name
    Examples.to_value_list QueryParams PAll
    (Some Examples.widget_view) (Some Examples.list_method) None [] []
  = Raise AttributeError
  /\ get_data Examples.any_value (VStr "en") Examples.lower Examples.prepare_header_name
       Examples.to_value_list Pagination PNone
       (Some Examples.plain_view) (Some Examples.list_method) None [] []
     = Raise AttributeError.
Proof.
  split.
  - apply (request_sourced_bits_null_request Examples.any_value (VStr "en")
             Examples.lower Examples.prepare_header_name Examples.to_value_list QueryParams
             PAll (Some Examples.widget_view) (Some Examples.list_method)
             [] []); [reflexivity|].
    right. discriminate.
  - apply (request_sourced_bits_null_request Examples.any_value (VStr "en")
             Examples.lower Examples.prepare_header_name Examples.to_value_list Pagination
             PNone (Some Examples.plain_view) (Some Examples.list_method)
             [] []); [reflexivity|].
    left. reflexivity.
Defined.


Lemma KeyBitDictBase_loop_skip_null (self : DictBit) (source_dict : dict)
  (pre post : list pyval) (key rkey : pyval) (data : dict) :
  prepare_key_for_value_retrieving self key = Ok rkey ->
  dict_get source_dict rkey = VNone ->
  KeyBitDictBase_loop self source_dict (pre ++ key :: post) data
  = KeyBitDictBase_loop self source_dict (pre ++ post) data.
Proof.
  intros Hr Hnull. revert data.
  induction pre as [|k pre IH]; intros data;
    cbn [app KeyBitDictBase_loop].
  - rewrite Hr. cbn [bind]. now rewrite Hnull.
  - destruct (prepare_key_for_value_retrieving self k) as [rk|];
      [|reflexivity].
    cbn [bind]. destruct (is_none (dict_get source_dict rk)); [apply IH|].
    destruct (prepare_key_for_value_assignment self k) as [ak|];
      [|reflexivity].
    cbn [bind]. apply IH.
Qed.

(** X6: a selected key whose looked-up value is null or missing contributes
    nothing: Headers, RequestMeta, QueryParams and Kwargs return the same
    result with that key taken out of the selector list. *)
Theorem dict_bits_null_key_is_dropped
  (any_value language : pyval) (lower header_name : string -> string)
  (to_value_list : string -> result pyval) (bit : key_bit) (self : DictBit)
  (pre post : list pyval) (key rkey : pyval)
  (view_instance : option View) (view_method : option Method)
  (request : option Request) (args : list pyval) (kwargs : dict)
  (source_dict : dict) :
  dict_bit_of lower header_name bit = Some self ->
  bit <> Pagination ->
  source_of bit request kwargs = Ok source_dict ->
  prepare_key_for_value_retrieving self key = Ok rkey ->
  dict_get source_dict rkey = VNone ->
  get_data any_value language lower header_name to_value_list bit
    (PList (pre ++ key :: post)) view_instance view_method request args kwargs
  = get_data any_value language lower header_name to_value_list bit
      (PList (pre ++ post)) view_instance view_method request args kwargs.
Proof.
  intros Hself Hnot Hsrc Hr Hnull.
  assert (forall ps,
            get_source_dict self ps view_instance view_method request args
              kwargs = Ok source_dict) as Hsource.
  { intros ps. rewrite <- Hsrc.
    destruct bit; simpl in Hself; inversion Hself; reflexivity. }
  assert (forall l,
            get_data any_value language lower header_name to_value_list bit
              (PList l) view_instance view_method request args kwargs
            = (data <- KeyBitDictBase_loop self source_dict l [] ;;
               Ok (FDict data))) as Hget.
  { intros l.
    destruct bit; simpl in Hself; inversion Hself; subst self;
      try contradiction; cbn [get_data]; unfold KeyBitDictBase_get_data;
      rewrite Hsource; reflexivity. }
  rewrite !Hget.
  now rewrite (KeyBitDictBase_loop_skip_null _ _ _ _ _ _ _ Hr Hnull).
Qed.

Lemma dict_bits_null_key_is_dropped_witness :
  get_data Examples.any_value (VStr "en") Examples.lower Examples.prepare_header_name
    Examples.to_value_list Headers
    (PList ([VStr "Accept-Language"] ++ VStr "X-Geobase-Id" :: []))
    None None (Some Examples.paged_request) [] []
  = get_data Examples.any_value (VStr "en") Examples.lower Examples.prepare_header_name
      Examples.to_value_list Headers
      (PList ([VStr "Accept-Language"] ++ []))
      None None (Some Examples.paged_request) [] [].
Proof.
  apply (dict_bits_null_key_is_dropped Examples.any_value (VStr "en")
           Examples.lower Examples.prepare_header_name Examples.to_value_list Headers
           (HeadersKeyBit Examples.lower Examples.prepare_header_name)
           [VStr "Accept-Language"] [] (VStr "X-Geobase-Id")
           (VStr "HTTP_X_GEOBASE_ID") None None (Some Examples.paged_request)
           [] [] (META Examples.paged_request));
    try reflexivity.
  discriminate.
Defined.

(** ** Further properties of PaginationKeyBit *)

Lemma PaginationKeyBit_params_length (view_instance : option View) :
  (List.length (PaginationKeyBit_params view_instance) <= 2)%nat.
Proof.
  unfold PaginationKeyBit_params.
  destruct view_instance as [v|]; [|simpl; lia].
  destruct (paginator v) as [[p|]|]; simpl; try lia.
  destruct (page_query_param p), (page_size_query_param p); simpl; lia.
Qed.

(** X7: with a request present the Pagination bit never raises, whatever the
    view and the selector it is handed; the mapping it returns has at most
    two entries, and each of its keys is a name discovered on the paginator
    that the query string gives a non-null value. *)
Theorem PaginationKeyBit_at_most_two_entries
  (params : params_t) (view_instance : option View)
  (view_method : option Method) (r : Request)
  (args : list pyval) (kwargs : dict) :
  exists data,
    PaginationKeyBit_get_data params view_instance view_method (Some r)
      args kwargs = Ok (FDict data)
    /\ (List.length data <= 2)%nat
    /\ forall key,
         In key (dict_keys data) ->
         In key (discovered_names view_instance)
         /\ dict_get (GET r) key <> VNone.
Proof.
  set (keys := PaginationKeyBit_params view_instance).
  assert (transforms_defined PaginationKeyBit keys = true) as Hdef.
  { unfold transforms_defined. apply forallb_forall. now intros k _. }
  exists (assign_all (writes PaginationKeyBit (GET r) keys) []).
  split.
  - unfold PaginationKeyBit_get_data, KeyBitDictBase_get_data. simpl.
    fold keys. now rewrite (KeyBitDictBase_loop_writes _ _ _ _ Hdef).
  - split.
    + pose proof (assign_all_length (writes PaginationKeyBit (GET r) keys) []).
      pose proof (writes_length PaginationKeyBit (GET r) keys).
      pose proof (PaginationKeyBit_params_length view_instance).
      fold keys in H1. simpl in H. lia.
    + intros key Hin. apply assign_all_keys_written in Hin.
      apply in_map_iff in Hin. destruct Hin as [[a v] [Hfst Hw]].
      simpl in Hfst. subst a.
      destruct (writes_In _ _ _ _ _ Hw) as [k [rk [Hk [Hr [Ha [Hnn _]]]]]].
      inversion Hr; inversion Ha; subst.
      split; [|exact Hnn].
      rewrite <- PaginationKeyBit_params_discovered. exact Hk.
Qed.

Lemma PaginationKeyBit_at_most_two_entries_witness :
  exists data,
    PaginationKeyBit_get_data PAll (Some Examples.widget_view) None
      (Some Examples.paged_request) [] [] = Ok (FDict data)
    /\ (List.length data <= 2)%nat
    /\ forall key,
         In key (dict_keys data) ->
         In key (discovered_names (Some Examples.widget_view))
         /\ dict_get (GET Examples.paged_request) key <> VNone.
Proof.
  exact (PaginationKeyBit_at_most_two_entries PAll
           (Some Examples.widget_view) None Examples.paged_request [] []).
Defined.

(** X8: a paginator whose [page_size_query_param] attribute is present but
    set to [None] adds nothing to the Pagination bit: as long as the query
    string has no [None] key, the result is the one selected by the page
    parameter name alone. *)
Theorem PaginationKeyBit_null_page_size_name
  (params : params_t) (v : View) (p : Paginator)
  (view_method : option Method) (r : Request)
  (args : list pyval) (kwargs : dict) :
  paginator v = Some (Some p) ->
  page_size_query_param p = Some VNone ->
  dict_lookup (GET r) VNone = None ->
  PaginationKeyBit_get_data params (Some v) view_method (Some r) args kwargs
  = KeyBitDictBase_get_data QueryParamsKeyBit (PList (page_name_only p))
      (Some v) view_method (Some r) args kwargs.
Proof.
  intros Hpag Hsize Hnone.
  assert (PaginationKeyBit_params (Some v) = page_name_only p ++ VNone :: [])
    as Hparams.
  { unfold PaginationKeyBit_params, page_name_only. rewrite Hpag, Hsize.
    now destruct (page_query_param p). }
  unfold PaginationKeyBit_get_data, KeyBitDictBase_get_data, PaginationKeyBit.
  rewrite Hparams. simpl.
  rewrite (KeyBitDictBase_loop_skip_null QueryParamsKeyBit (GET r)
             (page_name_only p) [] VNone VNone []).
  - now rewrite app_nil_r.
  - reflexivity.
  - unfold dict_get. now rewrite Hnone.
Qed.

Lemma PaginationKeyBit_null_page_size_name_witness :
  PaginationKeyBit_get_data PAll (Some Examples.paged_view) None
    (Some Examples.paged_request) [] []
  = KeyBitDictBase_get_data QueryParamsKeyBit (PList [VStr "page"])
      (Some Examples.paged_view) None (Some Examples.paged_request) [] [].
Proof.
  exact (PaginationKeyBit_null_page_size_name PAll Examples.paged_view
           Examples.page_number_pagination None Examples.paged_request [] []
           eq_refl eq_refl eq_refl).
Defined.

(** ** The wildcard over a source with null values *)

Lemma non_null_entries_keys (d : dict) (k : pyval) :
  In k (dict_keys (non_null_entries d)) -> In k (dict_keys d).
Proof.
  unfold dict_keys, non_null_entries. intros Hin.
  apply in_map_iff in Hin. destruct Hin as [e [Hfst He]].
  apply filter_In in He. apply in_map_iff. exists e. now split.
Qed.

Lemma non_null_entries_wf (d : dict) : dict_wf d -> dict_wf (non_null_entries d).
Proof.
  unfold dict_wf. induction d as [|[k v] d IH]; simpl; intros Hwf.
  - constructor.
  - inversion Hwf as [|? ? Hnot Hrest]; subst.
    destruct (negb (is_none v)); [|now apply IH].
    simpl. constructor; [|now apply IH].
    intros Hin. apply Hnot. now apply non_null_entries_keys.
Qed.

Lemma writes_identity_wildcard_nulls (self : DictBit) (d1 d2 : dict) :
  (forall key, prepare_key_for_value_retrieving self key = Ok key) ->
  (forall key, prepare_key_for_value_assignment self key = Ok key) ->
  dict_wf (d1 ++ d2) ->
  writes self (d1 ++ d2) (dict_keys d2) = map text_entry (non_null_entries d2).
Proof.
  intros Hr Ha. revert d1. induction d2 as [|[k v] d2 IH]; intros d1 Hwf.
  - reflexivity.
  - cbn [dict_keys map fst writes non_null_entries List.filter snd].
    rewrite Hr, Ha. unfold dict_get at 1 2.
    rewrite (dict_lookup_wf_head _ _ _ _ Hwf).
    assert (writes self (d1 ++ (k, v) :: d2) (map fst d2)
            = map text_entry (non_null_entries d2)) as Hrest.
    { replace (d1 ++ (k, v) :: d2) with ((d1 ++ [(k, v)]) ++ d2)
        by (now rewrite <- app_assoc).
      apply IH. now rewrite <- app_assoc. }
    rewrite Hrest. now destruct (is_none v).
Qed.

(** X9: for the RequestMeta, QueryParams and Kwargs bits the wildcard keeps
    exactly the entries of the source mapping whose value is not null, in
    the source's order, each with the text of its value. *)
Theorem plain_dict_bits_wildcard_drops_nulls
  (any_value language : pyval) (lower header_name : string -> string)
  (to_value_list : string -> result pyval) (bit : key_bit)
  (view_instance : option View) (view_method : option Method)
  (request : option Request) (args : list pyval) (kwargs : dict)
  (source_dict : dict) :
  plain_dict_bit bit = true ->
  source_of bit request kwargs = Ok source_dict ->
  dict_wf source_dict ->
  get_data any_value language lower header_name to_value_list bit PAll
    view_instance view_method request args kwargs
  = Ok (FDict (map text_entry (non_null_entries source_dict))).
Proof.
  intros Hplain Hsrc Hwf.
  assert (exists self,
            dict_bit_of lower header_name bit = Some self
            /\ (forall key, prepare_key_for_value_retrieving self key = Ok key)
            /\ (forall key, prepare_key_for_value_assignment self key = Ok key))
    as [self [Hself [Hr Ha]]].
  { destruct bit; try discriminate Hplain; eexists;
      (split; [reflexivity | split; reflexivity]). }
  assert (effective_params bit PAll view_instance = PAll) as Heff
      by (destruct bit; try discriminate Hplain; reflexivity).
  assert (transforms_defined self
            (selected_keys (effective_params bit PAll view_instance)
               source_dict) = true) as Hdef.
  { unfold transforms_defined. apply forallb_forall. intros k _.
    now rewrite Hr, Ha. }
  rewrite (dict_bit_get_data_writes _ _ _ _ _ _ _ _ _ _ _ _ _ _
             Hself Hsrc Hdef).
  rewrite Heff. cbn [selected_keys].
  pose proof (writes_identity_wildcard_nulls self [] source_dict Hr Ha Hwf)
    as Hw.
  cbn [app] in Hw. rewrite Hw.
  rewrite assign_all_fresh; [reflexivity|].
  cbn [dict_keys map app]. rewrite map_map.
  exact (non_null_entries_wf _ Hwf).
Qed.

Lemma plain_dict_bits_wildcard_drops_nulls_witness :
  get_data Examples.any_value (VStr "en") Examples.lower Examples.prepare_header_name
    Examples.to_value_list Kwargs PAll None None None []
    [(VStr "pk", VInt 7); (VStr "format", VNone); (VStr "slug", VStr "w")]
  = Ok (FDict [(VStr "pk", VStr "7"); (VStr "slug", VStr "w")]).
Proof.
  apply (plain_dict_bits_wildcard_drops_nulls Examples.any_value (VStr "en")
           Examples.lower Examples.prepare_header_name Examples.to_value_list Kwargs
           None None None []
           [(VStr "pk", VInt 7); (VStr "format", VNone); (VStr "slug", VStr "w")]
           [(VStr "pk", VInt 7); (VStr "format", VNone); (VStr "slug", VStr "w")]);
    try reflexivity.
  repeat constructor; simpl; intuition discriminate.
Defined.

(** ** Further properties of the queryset-derived bits *)

(** X10: a bit of the SQL-text family returns null only for an empty
    queryset: given the queryset it serialises, the result is null exactly
    when that queryset is an [EmptyQuerySet] or rendering its query raises
    [EmptyResultSet]. *)
Theorem sql_bits_null_iff_empty
  (any_value language : pyval) (lower header_name : string -> string)
  (to_value_list : string -> result pyval) (bit : key_bit)
  (params : params_t) (view_instance : option View)
  (view_method : option Method) (request : option Request)
  (args : list pyval) (kwargs : dict) (queryset : QuerySet) :
  sql_text_family bit = true ->
  derived_queryset bit view_instance = Ok queryset ->
  (get_data any_value language lower header_name to_value_list bit params
     view_instance view_method request args kwargs = Ok (FVal VNone)
   <-> (is_EmptyQuerySet queryset = true
        \/ query_str queryset = Raise EmptyResultSet)).
Proof.
  intros Hfam Hqs.
  rewrite (get_data_derived_queryset _ _ _ _ _ _ _ _ _ _ _ _ _
             (or_introl Hfam) Hqs).
  rewrite Hfam. unfold SqlQueryKeyBitBase_get_queryset_query_string.
  destruct (is_EmptyQuerySet queryset).
  - split; [now left | reflexivity].
  - destruct (query_str queryset) as [s|e]; simpl.
    + split; [discriminate | intros [H|H]; discriminate].
    + destruct e; simpl; split; try discriminate;
        try (intros [H|H]; discriminate); try reflexivity.
      now right.
Qed.

Lemma sql_bits_null_iff_empty_witness :
  get_data Examples.any_value (VStr "en") Examples.lower Examples.prepare_header_name
    Examples.to_value_list ListSqlQuery PNone
    (Some (Examples.view_over Examples.zero_rows)) None None [] []
  <> Ok (FVal VNone).
Proof.
  intros Hnull.
  apply (sql_bits_null_iff_empty Examples.any_value (VStr "en")
           Examples.lower Examples.prepare_header_name Examples.to_value_list ListSqlQuery
           PNone (Some (Examples.view_over Examples.zero_rows)) None None
           [] [] Examples.zero_rows eq_refl eq_refl) in Hnull.
  destruct Hnull as [H|H]; discriminate H.
Defined.

(** X11: the model-content bits ask for the row count before the guarded
    rendering, so an exception raised by [count()] reaches the caller, also
    when it is [EmptyResultSet]. *)
Theorem model_bits_count_error_propagates
  (any_value language : pyval) (lower header_name : string -> string)
  (to_value_list : string -> result pyval) (bit : key_bit)
  (params : params_t) (view_instance : option View)
  (view_method : option Method) (request : option Request)
  (args : list pyval) (kwargs : dict) (queryset : QuerySet) (e : pyexc) :
  model_content_family bit = true ->
  derived_queryset bit view_instance = Ok queryset ->
  is_EmptyQuerySet queryset = false ->
  count queryset = Raise e ->
  get_data any_value language lower header_name to_value_list bit params
    view_instance view_method request args kwargs = Raise e.
Proof.
  intros Hfam Hqs Hempty Hcount.
  rewrite (get_data_derived_queryset _ _ _ _ _ _ _ _ _ _ _ _ _
             (or_intror Hfam) Hqs).
  assert (sql_text_family bit = false) as ->
      by (destruct bit; simpl in *; congruence).
  unfold ModelInstanceKeyBitBase_get_queryset_query_values.
  now rewrite Hempty, Hcount.
Qed.

Lemma model_bits_count_error_propagates_witness :
  get_data Examples.any_value (VStr "en") Examples.lower Examples.prepare_header_name
    Examples.to_value_list ListModel PNone
    (Some (Examples.view_over Examples.unrenderable)) None None [] []
  = Raise EmptyResultSet.
Proof.
  exact (model_bits_count_error_propagates Examples.any_value (VStr "en")
           Examples.lower Examples.prepare_header_name Examples.to_value_list ListModel
           PNone (Some (Examples.view_over Examples.unrenderable)) None None
           [] [] Examples.unrenderable EmptyResultSet
           eq_refl eq_refl eq_refl eq_refl).
Defined.

(** X12: the Retrieve bits read the lookup value before the guarded filter:
    when the view's keyword arguments have no entry for the lookup field
    they raise [KeyError], whatever the queryset would do. *)
Theorem retrieve_bits_missing_lookup_kwarg
  (any_value language : pyval) (lower header_name : string -> string)
  (to_value_list : string -> result pyval) (bit : key_bit)
  (params : params_t) (v : View)
  (view_method : option Method) (request : option Request)
  (args : list pyval) (kwargs : dict) :
  bit = RetrieveSqlQuery \/ bit = RetrieveModel ->
  dict_lookup (view_kwargs v) (VStr (lookup_field v)) = None ->
  get_data any_value language lower header_name to_value_list bit params
    (Some v) view_method request args kwargs = Raise KeyError.
Proof.
  intros Hbit Hkw.
  assert (view_lookup_value (Some v) = Raise KeyError) as Hlv.
  { unfold view_lookup_value, dict_getitem. simpl. now rewrite Hkw. }
  destruct Hbit as [-> | ->]; simpl;
    unfold RetrieveSqlQueryKeyBit_get_data, RetrieveModelKeyBit_get_data;
    now rewrite Hlv.
Qed.

Lemma retrieve_bits_missing_lookup_kwarg_witness :
  get_data Examples.any_value (VStr "en") Examples.lower Examples.prepare_header_name
    Examples.to_value_list RetrieveModel PNone
    (Some Examples.unrouted_view) None None [] [] = Raise KeyError.
Proof.
  apply (retrieve_bits_missing_lookup_kwarg Examples.any_value (VStr "en")
           Examples.lower Examples.prepare_header_name Examples.to_value_list RetrieveModel
           PNone Examples.unrouted_view None None [] []).
  - right. reflexivity.
  - reflexivity.
Defined.

(** X13: the guard of the Retrieve bits covers the whole chain
    [filter_queryset(get_queryset()).filter(...)]: a [ValueError] raised by
    [get_queryset], by [filter_queryset] or by [filter] gives null, and any
    other exception raised there reaches the caller. *)
Theorem retrieve_bits_chain_errors
  (any_value language : pyval) (lower header_name : string -> string)
  (to_value_list : string -> result pyval) (bit : key_bit)
  (params : params_t) (v : View) (lookup_value : pyval)
  (view_method : option Method) (request : option Request)
  (args : list pyval) (kwargs : dict) (e : pyexc) :
  bit = RetrieveSqlQuery \/ bit = RetrieveModel ->
  dict_lookup (view_kwargs v) (VStr (lookup_field v)) = Some lookup_value ->
  (get_queryset v = Raise e
   \/ (exists base,
         get_queryset v = Ok base /\ filter_queryset v base = Raise e)
   \/ (exists base filtered,
         get_queryset v = Ok base /\ filter_queryset v base = Ok filtered
         /\ filter filtered (lookup_field v) lookup_value = Raise e)) ->
  get_data any_value language lower header_name to_value_list bit params
    (Some v) view_method request args kwargs
  = if pyexc_eqb e ValueError then Ok (FVal VNone) else Raise e.
Proof.
  intros Hbit Hkw Hchain.
  assert (view_lookup_value (Some v) = Ok lookup_value) as Hlv.
  { unfold view_lookup_value, dict_getitem. simpl. now rewrite Hkw. }
  assert (view_lookup_queryset (Some v) lookup_value = Raise e) as Hq.
  { unfold view_lookup_queryset, view_filtered_queryset. simpl.
    destruct Hchain as [H|[[base [Hb H]]|[base [filtered [Hb [Hf H]]]]]].
    - now rewrite H.
    - rewrite Hb. simpl. now rewrite H.
    - rewrite Hb. simpl. rewrite Hf. simpl. exact H. }
  destruct Hbit as [-> | ->]; simpl;
    unfold RetrieveSqlQueryKeyBit_get_data, RetrieveModelKeyBit_get_data;
    rewrite Hlv; simpl; rewrite Hq; now destruct e.
Qed.

Lemma retrieve_bits_chain_errors_witness :
  get_data Examples.any_value (VStr "en") Examples.lower Examples.prepare_header_name
    Examples.to_value_list RetrieveSqlQuery PNone
    (Some (Examples.failing_view ValueError)) None None [] []
  = Ok (FVal VNone)
  /\ get_data Examples.any_value (VStr "en") Examples.lower Examples.prepare_header_name
       Examples.to_value_list RetrieveSqlQuery PNone
       (Some (Examples.failing_view TypeError)) None None [] []
     = Raise TypeError.
Proof.
  split.
  - apply (retrieve_bits_chain_errors Examples.any_value (VStr "en")
             Examples.lower Examples.prepare_header_name Examples.to_value_list
             RetrieveSqlQuery PNone (Examples.failing_view ValueError)
             (VStr "7") None None [] [] ValueError).
    + left. reflexivity.
    + reflexivity.
    + left. reflexivity.
  - apply (retrieve_bits_chain_errors Examples.any_value (VStr "en")
             Examples.lower Examples.prepare_header_name Examples.to_value_list
             RetrieveSqlQuery PNone (Examples.failing_view TypeError)
             (VStr "7") None None [] [] TypeError).
    + left. reflexivity.
    + reflexivity.
    + left. reflexivity.
Defined.

(** X14: rendering the query is outside every guard but the one for
    [EmptyResultSet]: when the SQL text of the serialised queryset raises
    another exception, a [ValueError] included, the SQL-text bits raise it,
    the Retrieve variant too. *)
Theorem sql_bits_render_error_propagates
  (any_value language : pyval) (lower header_name : string -> string)
  (to_value_list : string -> result pyval) (bit : key_bit)
  (params : params_t) (view_instance : option View)
  (view_method : option Method) (request : option Request)
  (args : list pyval) (kwargs : dict) (queryset : QuerySet) (e : pyexc) :
  sql_text_family bit = true ->
  derived_queryset bit view_instance = Ok queryset ->
  is_EmptyQuerySet queryset = false ->
  query_str queryset = Raise e ->
  e <> EmptyResultSet ->
  get_data any_value language lower header_name to_value_list bit params
    view_instance view_method request args kwargs = Raise e.
Proof.
  intros Hfam Hqs Hempty Hstr Hne.
  rewrite (get_data_derived_queryset _ _ _ _ _ _ _ _ _ _ _ _ _
             (or_introl Hfam) Hqs).
  rewrite Hfam. unfold SqlQueryKeyBitBase_get_queryset_query_string.
  rewrite Hempty, Hstr. simpl. destruct e; try reflexivity. congruence.
Qed.

Lemma sql_bits_render_error_propagates_witness :
  get_data Examples.any_value (VStr "en") Examples.lower Examples.prepare_header_name
    Examples.to_value_list RetrieveSqlQuery PNone
    (Some (Examples.view_over Examples.lookup_unrenderable)) None None [] []
  = Raise ValueError.
Proof.
  apply (sql_bits_render_error_propagates Examples.any_value (VStr "en")
           Examples.lower Examples.prepare_header_name Examples.to_value_list
           RetrieveSqlQuery PNone
           (Some (Examples.view_over Examples.lookup_unrenderable))
           None None [] [] Examples.unrenderable ValueError);
    try reflexivity.
  discriminate.
Defined.

(** ** Further properties of ArgsKeyBit *)






(** ** Further properties of the identity bits *)

Lemma string_append_assoc (a b c : string) :
  ((a ++ b) ++ c)%string = (a ++ (b ++ c))%string.
Proof.
  induction a as [|ch a IH]; simpl; [reflexivity | now rewrite IH].
Qed.

(** X16: with a view and a method present, the method id is the view id
    followed by a dot and the method's name, and neither is the sentinel
    fallback. *)
Theorem UniqueMethodIdKeyBit_extends_view_id
  (any_value : pyval) (params : params_t) (v : View) (m : Method)
  (request : option Request) (args : list pyval) (kwargs : dict) :
  exists view_id,
    UniqueViewIdKeyBit_get_data any_value params (Some v) (Some m) request
      args kwargs = Ok (FVal (VStr view_id))
    /\ UniqueMethodIdKeyBit_get_data any_value params (Some v) (Some m)
         request args kwargs
       = Ok (FVal (VStr (view_id ++ "." ++ method_name m)%string)).
Proof.
  exists (join_dot [view_module v; view_class_name v]).
  split; [reflexivity|].
  unfold UniqueMethodIdKeyBit_get_data, join_dot. simpl.
  now rewrite !string_append_assoc.
Qed.

(** ** Further properties of ModelNameKeyBit *)


